(** * University Challenge practice game: the game state machine

    A shallow embedding of [src/artifact-component.tsx], the React
    component [UniversityChallengeGame].  The component's [useState]
    cells and [useRef] cells become the fields of one record [Game]; an
    event handler becomes a state update that reads the values captured
    by the render it was created in (its closure) and queues updates on
    the pending state, exactly as React's setters do; the JSX decides
    which handler a click can reach. *)

From Stdlib Require Import ZArith QArith Lia.
From stdpp Require Import base numbers list strings.

Local Open Scope Z_scope.
Local Open Scope nat_scope.

(** ** Data model (the TypeScript interfaces) *)

Record Question := MkQuestion {
  question : string;
  answer : string;
  points : Z
}.

(** An element of [BonusSet.questions]. *)
Record BonusQuestion := MkBonusQuestion {
  bq_question : string;
  bq_answer : string
}.

Record BonusSet := MkBonusSet {
  topic : string;
  questions : list BonusQuestion
}.

(** [GameStatistics]; the fields carry the prefix [stat_] because the
    component's state cells have the same names. [stat_date] holds the
    instant whose ISO rendering the source stores; [stat_avgBuzzTime] is
    the exact quotient (the source rounds it to a double). *)
Record GameStatistics := MkGameStatistics {
  stat_id : Z;
  stat_date : Z;
  stat_avgBuzzTime : Q;
  stat_score : Z;
  stat_incorrectBuzzes : nat;
  stat_correctStarters : nat;
  stat_totalStarters : nat;
  stat_correctBonuses : nat;
  stat_totalBonuses : nat
}.

(** type GameState = 'ready' | 'playing' | 'answer' | 'bonus' | 'session' *)
Inductive GameState := Ready | Playing | Answer | Bonus | Session.

#[global] Instance GameState_eq_dec : EqDecision GameState.
Proof. solve_decision. Defined.

Definition STARTER_TIME_LIMIT : Z := 60000.

(** [arr.filter((_, index) => keep(index))], the indices counted from
    [i]. *)
Fixpoint filter_index {A} (keep : nat → bool) (i : nat) (arr : list A) : list A :=
  match arr with
  | [] => []
  | x :: rest =>
      if keep i then x :: filter_index keep (S i) rest
      else filter_index keep (S i) rest
  end.

(** [arr.filter((_, index) => index !== k)] *)
Definition filter_index_ne {A} (k : nat) (arr : list A) : list A :=
  filter_index (λ index, negb (index =? k)) 0 arr.

Global Arguments filter_index_ne : simpl never.

(** [arr.reduce((a, b) => a + b, 0)] *)
Definition reduce_sum (arr : list Z) : Z := fold_left Z.add arr 0%Z.

(** [getAverageBuzzTime], on the captured [buzzTimes]. *)
Definition getAverageBuzzTime (buzzTimes : list Z) : Q :=
  if length buzzTimes =? 0 then 0%Q
  else (inject_Z (reduce_sum buzzTimes) / inject_Z (Z.of_nat (length buzzTimes)))%Q.

(** ** The component's state: every [useState] cell, the two refs that
    carry state ([startTime], and [timerInterval] as "the interval this
    ref names is live"), the number of [buzzerSound.current.play()]
    calls, the [localStorage] entry 'universityChallenge_stats' (parsed),
    and whether the component is still mounted. *)

Record Game := MkGame {
  starters : list Question;
  bonuses : list BonusSet;
  gameState : GameState;
  currentQuestion : nat;
  score : Z;
  showAnswer : bool;
  currentBonus : nat;
  soundEnabled : bool;
  timerRunning : bool;
  elapsedTime : Z;
  buzzTimes : list Z;
  showBonusAnswer : bool;
  showAllHistory : bool;
  statistics : list GameStatistics;
  incorrectBuzzes : nat;
  correctStarters : nat;
  totalStarters : nat;
  correctBonuses : nat;
  totalBonuses : nat;
  currentBonusSet : option BonusSet;
  startTime : option Z;
  timerInterval : bool;
  buzzerPlays : nat;
  localStorage : option (list GameStatistics);
  mounted : bool
}.

Definition setStarters (f : list Question → list Question) (g : Game) : Game :=
  MkGame (f (starters g)) (bonuses g) (gameState g) (currentQuestion g)
    (score g) (showAnswer g) (currentBonus g) (soundEnabled g)
    (timerRunning g) (elapsedTime g) (buzzTimes g) (showBonusAnswer g)
    (showAllHistory g) (statistics g) (incorrectBuzzes g) (correctStarters g)
    (totalStarters g) (correctBonuses g) (totalBonuses g) (currentBonusSet g)
    (startTime g) (timerInterval g) (buzzerPlays g) (localStorage g)
    (mounted g).

Definition setBonuses (f : list BonusSet → list BonusSet) (g : Game) : Game :=
  MkGame (starters g) (f (bonuses g)) (gameState g) (currentQuestion g)
    (score g) (showAnswer g) (currentBonus g) (soundEnabled g)
    (timerRunning g) (elapsedTime g) (buzzTimes g) (showBonusAnswer g)
    (showAllHistory g) (statistics g) (incorrectBuzzes g) (correctStarters g)
    (totalStarters g) (correctBonuses g) (totalBonuses g) (currentBonusSet g)
    (startTime g) (timerInterval g) (buzzerPlays g) (localStorage g)
    (mounted g).

Definition setGameState (f : GameState → GameState) (g : Game) : Game :=
  MkGame (starters g) (bonuses g) (f (gameState g)) (currentQuestion g)
    (score g) (showAnswer g) (currentBonus g) (soundEnabled g)
    (timerRunning g) (elapsedTime g) (buzzTimes g) (showBonusAnswer g)
    (showAllHistory g) (statistics g) (incorrectBuzzes g) (correctStarters g)
    (totalStarters g) (correctBonuses g) (totalBonuses g) (currentBonusSet g)
    (startTime g) (timerInterval g) (buzzerPlays g) (localStorage g)
    (mounted g).

Definition setCurrentQuestion (f : nat → nat) (g : Game) : Game :=
  MkGame (starters g) (bonuses g) (gameState g) (f (currentQuestion g))
    (score g) (showAnswer g) (currentBonus g) (soundEnabled g)
    (timerRunning g) (elapsedTime g) (buzzTimes g) (showBonusAnswer g)
    (showAllHistory g) (statistics g) (incorrectBuzzes g) (correctStarters g)
    (totalStarters g) (correctBonuses g) (totalBonuses g) (currentBonusSet g)
    (startTime g) (timerInterval g) (buzzerPlays g) (localStorage g)
    (mounted g).

Definition setScore (f : Z → Z) (g : Game) : Game :=
  MkGame (starters g) (bonuses g) (gameState g) (currentQuestion g)
    (f (score g)) (showAnswer g) (currentBonus g) (soundEnabled g)
    (timerRunning g) (elapsedTime g) (buzzTimes g) (showBonusAnswer g)
    (showAllHistory g) (statistics g) (incorrectBuzzes g) (correctStarters g)
    (totalStarters g) (correctBonuses g) (totalBonuses g) (currentBonusSet g)
    (startTime g) (timerInterval g) (buzzerPlays g) (localStorage g)
    (mounted g).

Definition setShowAnswer (f : bool → bool) (g : Game) : Game :=
  MkGame (starters g) (bonuses g) (gameState g) (currentQuestion g) (score g)
    (f (showAnswer g)) (currentBonus g) (soundEnabled g) (timerRunning g)
    (elapsedTime g) (buzzTimes g) (showBonusAnswer g) (showAllHistory g)
    (statistics g) (incorrectBuzzes g) (correctStarters g) (totalStarters g)
    (correctBonuses g) (totalBonuses g) (currentBonusSet g) (startTime g)
    (timerInterval g) (buzzerPlays g) (localStorage g) (mounted g).

Definition setCurrentBonus (f : nat → nat) (g : Game) : Game :=
  MkGame (starters g) (bonuses g) (gameState g) (currentQuestion g) (score g)
    (showAnswer g) (f (currentBonus g)) (soundEnabled g) (timerRunning g)
    (elapsedTime g) (buzzTimes g) (showBonusAnswer g) (showAllHistory g)
    (statistics g) (incorrectBuzzes g) (correctStarters g) (totalStarters g)
    (correctBonuses g) (totalBonuses g) (currentBonusSet g) (startTime g)
    (timerInterval g) (buzzerPlays g) (localStorage g) (mounted g).

Definition setSoundEnabled (f : bool → bool) (g : Game) : Game :=
  MkGame (starters g) (bonuses g) (gameState g) (currentQuestion g) (score g)
    (showAnswer g) (currentBonus g) (f (soundEnabled g)) (timerRunning g)
    (elapsedTime g) (buzzTimes g) (showBonusAnswer g) (showAllHistory g)
    (statistics g) (incorrectBuzzes g) (correctStarters g) (totalStarters g)
    (correctBonuses g) (totalBonuses g) (currentBonusSet g) (startTime g)
    (timerInterval g) (buzzerPlays g) (localStorage g) (mounted g).

Definition setTimerRunning (f : bool → bool) (g : Game) : Game :=
  MkGame (starters g) (bonuses g) (gameState g) (currentQuestion g) (score g)
    (showAnswer g) (currentBonus g) (soundEnabled g) (f (timerRunning g))
    (elapsedTime g) (buzzTimes g) (showBonusAnswer g) (showAllHistory g)
    (statistics g) (incorrectBuzzes g) (correctStarters g) (totalStarters g)
    (correctBonuses g) (totalBonuses g) (currentBonusSet g) (startTime g)
    (timerInterval g) (buzzerPlays g) (localStorage g) (mounted g).

Definition setElapsedTime (f : Z → Z) (g : Game) : Game :=
  MkGame (starters g) (bonuses g) (gameState g) (currentQuestion g) (score g)
    (showAnswer g) (currentBonus g) (soundEnabled g) (timerRunning g)
    (f (elapsedTime g)) (buzzTimes g) (showBonusAnswer g) (showAllHistory g)
    (statistics g) (incorrectBuzzes g) (correctStarters g) (totalStarters g)
    (correctBonuses g) (totalBonuses g) (currentBonusSet g) (startTime g)
    (timerInterval g) (buzzerPlays g) (localStorage g) (mounted g).

Definition setBuzzTimes (f : list Z → list Z) (g : Game) : Game :=
  MkGame (starters g) (bonuses g) (gameState g) (currentQuestion g) (score g)
    (showAnswer g) (currentBonus g) (soundEnabled g) (timerRunning g)
    (elapsedTime g) (f (buzzTimes g)) (showBonusAnswer g) (showAllHistory g)
    (statistics g) (incorrectBuzzes g) (correctStarters g) (totalStarters g)
    (correctBonuses g) (totalBonuses g) (currentBonusSet g) (startTime g)
    (timerInterval g) (buzzerPlays g) (localStorage g) (mounted g).

Definition setShowBonusAnswer (f : bool → bool) (g : Game) : Game :=
  MkGame (starters g) (bonuses g) (gameState g) (currentQuestion g) (score g)
    (showAnswer g) (currentBonus g) (soundEnabled g) (timerRunning g)
    (elapsedTime g) (buzzTimes g) (f (showBonusAnswer g)) (showAllHistory g)
    (statistics g) (incorrectBuzzes g) (correctStarters g) (totalStarters g)
    (correctBonuses g) (totalBonuses g) (currentBonusSet g) (startTime g)
    (timerInterval g) (buzzerPlays g) (localStorage g) (mounted g).

Definition setShowAllHistory (f : bool → bool) (g : Game) : Game :=
  MkGame (starters g) (bonuses g) (gameState g) (currentQuestion g) (score g)
    (showAnswer g) (currentBonus g) (soundEnabled g) (timerRunning g)
    (elapsedTime g) (buzzTimes g) (showBonusAnswer g) (f (showAllHistory g))
    (statistics g) (incorrectBuzzes g) (correctStarters g) (totalStarters g)
    (correctBonuses g) (totalBonuses g) (currentBonusSet g) (startTime g)
    (timerInterval g) (buzzerPlays g) (localStorage g) (mounted g).

Definition setStatistics (f : list GameStatistics → list GameStatistics) (g : Game) : Game :=
  MkGame (starters g) (bonuses g) (gameState g) (currentQuestion g) (score g)
    (showAnswer g) (currentBonus g) (soundEnabled g) (timerRunning g)
    (elapsedTime g) (buzzTimes g) (showBonusAnswer g) (showAllHistory g)
    (f (statistics g)) (incorrectBuzzes g) (correctStarters g)
    (totalStarters g) (correctBonuses g) (totalBonuses g) (currentBonusSet g)
    (startTime g) (timerInterval g) (buzzerPlays g) (localStorage g)
    (mounted g).

Definition setIncorrectBuzzes (f : nat → nat) (g : Game) : Game :=
  MkGame (starters g) (bonuses g) (gameState g) (currentQuestion g) (score g)
    (showAnswer g) (currentBonus g) (soundEnabled g) (timerRunning g)
    (elapsedTime g) (buzzTimes g) (showBonusAnswer g) (showAllHistory g)
    (statistics g) (f (incorrectBuzzes g)) (correctStarters g)
    (totalStarters g) (correctBonuses g) (totalBonuses g) (currentBonusSet g)
    (startTime g) (timerInterval g) (buzzerPlays g) (localStorage g)
    (mounted g).

Definition setCorrectStarters (f : nat → nat) (g : Game) : Game :=
  MkGame (starters g) (bonuses g) (gameState g) (currentQuestion g) (score g)
    (showAnswer g) (currentBonus g) (soundEnabled g) (timerRunning g)
    (elapsedTime g) (buzzTimes g) (showBonusAnswer g) (showAllHistory g)
    (statistics g) (incorrectBuzzes g) (f (correctStarters g))
    (totalStarters g) (correctBonuses g) (totalBonuses g) (currentBonusSet g)
    (startTime g) (timerInterval g) (buzzerPlays g) (localStorage g)
    (mounted g).

Definition setTotalStarters (f : nat → nat) (g : Game) : Game :=
  MkGame (starters g) (bonuses g) (gameState g) (currentQuestion g) (score g)
    (showAnswer g) (currentBonus g) (soundEnabled g) (timerRunning g)
    (elapsedTime g) (buzzTimes g) (showBonusAnswer g) (showAllHistory g)
    (statistics g) (incorrectBuzzes g) (correctStarters g)
    (f (totalStarters g)) (correctBonuses g) (totalBonuses g)
    (currentBonusSet g) (startTime g) (timerInterval g) (buzzerPlays g)
    (localStorage g) (mounted g).

Definition setCorrectBonuses (f : nat → nat) (g : Game) : Game :=
  MkGame (starters g) (bonuses g) (gameState g) (currentQuestion g) (score g)
    (showAnswer g) (currentBonus g) (soundEnabled g) (timerRunning g)
    (elapsedTime g) (buzzTimes g) (showBonusAnswer g) (showAllHistory g)
    (statistics g) (incorrectBuzzes g) (correctStarters g) (totalStarters g)
    (f (correctBonuses g)) (totalBonuses g) (currentBonusSet g) (startTime g)
    (timerInterval g) (buzzerPlays g) (localStorage g) (mounted g).

Definition setTotalBonuses (f : nat → nat) (g : Game) : Game :=
  MkGame (starters g) (bonuses g) (gameState g) (currentQuestion g) (score g)
    (showAnswer g) (currentBonus g) (soundEnabled g) (timerRunning g)
    (elapsedTime g) (buzzTimes g) (showBonusAnswer g) (showAllHistory g)
    (statistics g) (incorrectBuzzes g) (correctStarters g) (totalStarters g)
    (correctBonuses g) (f (totalBonuses g)) (currentBonusSet g) (startTime g)
    (timerInterval g) (buzzerPlays g) (localStorage g) (mounted g).

Definition setCurrentBonusSet (f : option BonusSet → option BonusSet) (g : Game) : Game :=
  MkGame (starters g) (bonuses g) (gameState g) (currentQuestion g) (score g)
    (showAnswer g) (currentBonus g) (soundEnabled g) (timerRunning g)
    (elapsedTime g) (buzzTimes g) (showBonusAnswer g) (showAllHistory g)
    (statistics g) (incorrectBuzzes g) (correctStarters g) (totalStarters g)
    (correctBonuses g) (totalBonuses g) (f (currentBonusSet g)) (startTime g)
    (timerInterval g) (buzzerPlays g) (localStorage g) (mounted g).

Definition setStartTime (f : option Z → option Z) (g : Game) : Game :=
  MkGame (starters g) (bonuses g) (gameState g) (currentQuestion g) (score g)
    (showAnswer g) (currentBonus g) (soundEnabled g) (timerRunning g)
    (elapsedTime g) (buzzTimes g) (showBonusAnswer g) (showAllHistory g)
    (statistics g) (incorrectBuzzes g) (correctStarters g) (totalStarters g)
    (correctBonuses g) (totalBonuses g) (currentBonusSet g) (f (startTime g))
    (timerInterval g) (buzzerPlays g) (localStorage g) (mounted g).

Definition setTimerInterval (f : bool → bool) (g : Game) : Game :=
  MkGame (starters g) (bonuses g) (gameState g) (currentQuestion g) (score g)
    (showAnswer g) (currentBonus g) (soundEnabled g) (timerRunning g)
    (elapsedTime g) (buzzTimes g) (showBonusAnswer g) (showAllHistory g)
    (statistics g) (incorrectBuzzes g) (correctStarters g) (totalStarters g)
    (correctBonuses g) (totalBonuses g) (currentBonusSet g) (startTime g)
    (f (timerInterval g)) (buzzerPlays g) (localStorage g) (mounted g).

Definition setBuzzerPlays (f : nat → nat) (g : Game) : Game :=
  MkGame (starters g) (bonuses g) (gameState g) (currentQuestion g) (score g)
    (showAnswer g) (currentBonus g) (soundEnabled g) (timerRunning g)
    (elapsedTime g) (buzzTimes g) (showBonusAnswer g) (showAllHistory g)
    (statistics g) (incorrectBuzzes g) (correctStarters g) (totalStarters g)
    (correctBonuses g) (totalBonuses g) (currentBonusSet g) (startTime g)
    (timerInterval g) (f (buzzerPlays g)) (localStorage g) (mounted g).

Definition setLocalStorage (f : option (list GameStatistics) → option (list GameStatistics)) (g : Game) : Game :=
  MkGame (starters g) (bonuses g) (gameState g) (currentQuestion g) (score g)
    (showAnswer g) (currentBonus g) (soundEnabled g) (timerRunning g)
    (elapsedTime g) (buzzTimes g) (showBonusAnswer g) (showAllHistory g)
    (statistics g) (incorrectBuzzes g) (correctStarters g) (totalStarters g)
    (correctBonuses g) (totalBonuses g) (currentBonusSet g) (startTime g)
    (timerInterval g) (buzzerPlays g) (f (localStorage g)) (mounted g).

Definition setMounted (f : bool → bool) (g : Game) : Game :=
  MkGame (starters g) (bonuses g) (gameState g) (currentQuestion g) (score g)
    (showAnswer g) (currentBonus g) (soundEnabled g) (timerRunning g)
    (elapsedTime g) (buzzTimes g) (showBonusAnswer g) (showAllHistory g)
    (statistics g) (incorrectBuzzes g) (correctStarters g) (totalStarters g)
    (correctBonuses g) (totalBonuses g) (currentBonusSet g) (startTime g)
    (timerInterval g) (buzzerPlays g) (localStorage g) (f (mounted g)).

(** ** State updates

    A handler runs against the render [r] it was created in: plain reads
    such as [starters.length] see [r], while a functional setter
    [setX(prev => ...)] sees the pending value.  All updates queued by one
    handler are applied before the next render. *)

Definition update := Game → Game.

Definition skip : update := λ p, p.

Definition and_then (u v : update) : update := λ p, v (u p).

Infix ">>>" := and_then (at level 61, left associativity).

(** [setX(v)] with a plain value. *)
Definition to {A} (v : A) : A → A := λ _, v.

Inductive event :=
  | Start (shuffledStarters : list Question)
  | Buzz
  | JudgeStarter (correct : bool) (randomIndex : nat)
  | RevealBonusAnswer
  | JudgeBonus (correct : bool)
  | ContinueRound
  | EndSession
  | ToggleSound
  | ToggleHistoryView
  | Tick.

Section Component.

(** The two question banks are read from JSON files that are outside the
    component. *)
Variable SAMPLE_STARTERS : list Question.
Variable SAMPLE_BONUSES : list BonusSet.

(** [clearInterval(timerInterval.current)] *)
Definition clearInterval : update := setTimerInterval (to false).

(** [Date.now() - startTime.current]; a [null] ref counts as 0. *)
Definition since_start (now : Z) (p : Game) : Z :=
  (now - default 0 (startTime p))%Z.

Definition startTimer (now : Z) : update :=
  setStartTime (to (Some now)) >>>
  setTimerRunning (to true) >>>
  setElapsedTime (to 0%Z) >>>
  setTimerInterval (to true).

Definition handleTimeUp : update :=
  setGameState (to Answer) >>>
  setShowAnswer (to true) >>>
  setTotalStarters (λ prevTotal, prevTotal + 1).

(** The callback given to [setInterval] in [startTimer]. *)
Definition timerCallback (now : Z) : update := λ p,
  let elapsed := since_start now p in
  (setElapsedTime (to elapsed) >>>
   if (STARTER_TIME_LIMIT <=? elapsed)%Z
   then clearInterval >>> setTimerRunning (to false) >>> handleTimeUp
   else skip) p.

Definition startGame (now : Z) (shuffledStarters : list Question) : update :=
  setGameState (to Playing) >>>
  setScore (to 0%Z) >>>
  setCurrentQuestion (to 0) >>>
  setShowAnswer (to false) >>>
  setBuzzTimes (to []) >>>
  setIncorrectBuzzes (to 0) >>>
  setCorrectStarters (to 0) >>>
  setTotalStarters (to 0) >>>
  setCorrectBonuses (to 0) >>>
  setTotalBonuses (to 0) >>>
  setStarters (to shuffledStarters) >>>
  setBonuses (to SAMPLE_BONUSES) >>>
  startTimer now.

Definition handleBuzz (now : Z) (r : Game) : update :=
  if decide (gameState r ≠ Playing) then skip
  else
    clearInterval >>>
    setTimerRunning (to false) >>>
    (if soundEnabled r then setBuzzerPlays S else skip) >>>
    (λ p, let buzzTime := since_start now p in
          setBuzzTimes (λ prevBuzzTimes, prevBuzzTimes ++ [buzzTime]) p) >>>
    setShowAnswer (to true) >>>
    setGameState (to Answer) >>>
    setTotalStarters (λ prevTotal, prevTotal + 1).

Definition handleNextStep : update := setGameState (to Session).

Definition handleNextQuestion (now : Z) (r : Game) : update :=
  if 0 <? length (starters r) then
    setCurrentQuestion (to 0) >>>
    setShowAnswer (to false) >>>
    setShowBonusAnswer (to false) >>>
    setGameState (to Playing) >>>
    startTimer now
  else
    setGameState (to Ready).

(** [randomIndex] is the value of
    [Math.floor(Math.random() * bonuses.length)]. *)
Definition handleAnswer (now : Z) (randomIndex : nat) (r : Game)
    (correct : bool) : update :=
  match starters r !! currentQuestion r with
  | None => skip
  | Some q =>
      (if correct then
         setScore (λ prevScore, (prevScore + points q)%Z) >>>
         setCorrectStarters (λ prevCorrect, prevCorrect + 1) >>>
         (if 0 <? length (bonuses r) then
            let selectedBonus := bonuses r !! randomIndex in
            setBonuses (λ prevBonuses, filter_index_ne randomIndex prevBonuses) >>>
            setCurrentBonusSet (to selectedBonus) >>>
            setGameState (to Bonus) >>>
            setCurrentBonus (to 0) >>>
            setShowBonusAnswer (to false)
          else handleNextQuestion now r)
       else
         setIncorrectBuzzes (λ prevIncorrect, prevIncorrect + 1) >>>
         handleNextStep) >>>
      setStarters (λ prevStarters,
                     filter_index_ne (currentQuestion r) prevStarters)
  end.

Definition handleBonusAnswer (r : Game) (correct : bool) : update :=
  if length (bonuses r) =? 0 then skip
  else
    (if correct then
       setScore (λ prevScore, (prevScore + 5)%Z) >>>
       setCorrectBonuses (λ prevCorrectBonuses, prevCorrectBonuses + 1)
     else skip) >>>
    setTotalBonuses (λ prevTotalBonuses, prevTotalBonuses + 1) >>>
    (if currentBonus r <? 2 then
       setCurrentBonus (λ prevBonus, prevBonus + 1) >>>
       setShowBonusAnswer (to false)
     else handleNextStep).

Definition endSession : update := setGameState (to Ready).

Definition toggleSound (r : Game) : update :=
  setSoundEnabled (to (negb (soundEnabled r))).

(** ** Rendering and effects *)

(** The handler a click on a rendered control reaches, and the timer
    callback. *)
Definition handler (now : Z) (e : event) (r : Game) : update :=
  match e with
  | Start shuffledStarters => startGame now shuffledStarters
  | Buzz => handleBuzz now r
  | JudgeStarter correct randomIndex => handleAnswer now randomIndex r correct
  | RevealBonusAnswer => setShowBonusAnswer (to true)
  | JudgeBonus correct => handleBonusAnswer r correct
  | ContinueRound => handleNextQuestion now r
  | EndSession => endSession
  | ToggleSound => toggleSound r
  | ToggleHistoryView => setShowAllHistory (to (negb (showAllHistory r)))
  | Tick => timerCallback now
  end.

(** Which controls the JSX of render [r] contains; [Tick] can fire while
    the interval is live. *)
Definition enabled (r : Game) (e : event) : bool :=
  match e with
  | ToggleSound => true
  | Start _ => bool_decide (gameState r = Ready)
  | ToggleHistoryView =>
      bool_decide (gameState r = Ready) && (0 <? length (statistics r))
  | ContinueRound | EndSession => bool_decide (gameState r = Session)
  | Buzz => bool_decide (gameState r = Playing)
  | JudgeStarter _ _ => bool_decide (gameState r = Answer)
  | RevealBonusAnswer =>
      bool_decide (gameState r = Bonus) &&
      bool_decide (is_Some (currentBonusSet r)) && negb (showBonusAnswer r)
  | JudgeBonus _ =>
      bool_decide (gameState r = Bonus) &&
      bool_decide (is_Some (currentBonusSet r)) && showBonusAnswer r
  | Tick => timerInterval r
  end.

(** The JSX reads [starters[currentQuestion].question] (playing),
    [starters[currentQuestion].answer] (answer) and
    [currentBonusSet.questions[currentBonus].question] (bonus): a
    property read on [undefined] throws. *)
Definition render_throws (g : Game) : bool :=
  match gameState g with
  | Playing | Answer => bool_decide (starters g !! currentQuestion g = None)
  | Bonus =>
      match currentBonusSet g with
      | Some b => bool_decide (questions b !! currentBonus g = None)
      | None => false
      end
  | Ready | Session => false
  end.

(** A render that throws unmounts the component; the cleanup of the
    mount effect clears the interval. *)
Definition unmount : update :=
  (λ p, if timerInterval p then clearInterval p else p) >>>
  setMounted (to false).

(** The effect with dependency [gameState], run against render [r]. *)
Definition newStat (now : Z) (r : Game) : GameStatistics :=
  {| stat_id := now;
     stat_date := now;
     stat_avgBuzzTime := getAverageBuzzTime (buzzTimes r);
     stat_score := score r;
     stat_incorrectBuzzes := incorrectBuzzes r;
     stat_correctStarters := correctStarters r;
     stat_totalStarters := totalStarters r;
     stat_correctBonuses := correctBonuses r;
     stat_totalBonuses := totalBonuses r |}.

Definition statsEffect (now : Z) (r : Game) : update :=
  if bool_decide (gameState r = Ready) && (0 <? length (buzzTimes r)) then
    λ p, let updatedStats := statistics p ++ [newStat now r] in
         (setLocalStorage (to (Some updatedStats)) >>>
          setStatistics (to updatedStats)) p
  else skip.

(** What follows a handler that ran against render [r] and left the
    pending state [p]: the component renders again, and the effect runs
    if [gameState] changed.  [now] is the clock reading. *)
Definition commit (now : Z) (r p : Game) : Game :=
  if render_throws p then unmount p
  else if bool_decide (gameState p = gameState r) then p
  else statsEffect now p p.

(** One event, at clock reading [now]: nothing happens once the
    component is unmounted or if the control is not rendered. *)
Definition dispatch (now : Z) (e : event) (r : Game) : Game :=
  if negb (mounted r) then r
  else if negb (enabled r e) then r
  else commit now r (handler now e r r).

(** The state after mounting, [savedStats] being the stored entry. *)
Definition init (savedStats : option (list GameStatistics)) : Game :=
  {| starters := SAMPLE_STARTERS;
     bonuses := SAMPLE_BONUSES;
     gameState := Ready;
     currentQuestion := 0;
     score := 0%Z;
     showAnswer := false;
     currentBonus := 0;
     soundEnabled := true;
     timerRunning := false;
     elapsedTime := 0%Z;
     buzzTimes := [];
     showBonusAnswer := false;
     showAllHistory := false;
     statistics := default [] savedStats;
     incorrectBuzzes := 0;
     correctStarters := 0;
     totalStarters := 0;
     correctBonuses := 0;
     totalBonuses := 0;
     currentBonusSet := None;
     startTime := None;
     timerInterval := false;
     buzzerPlays := 0;
     localStorage := savedStats;
     mounted := true |}.

(** What the environment supplies: the shuffle is a permutation of the
    bank, and the random index lies within the pool. *)
Definition env_ok (g : Game) (e : event) : Prop :=
  match e with
  | Start shuffledStarters => shuffledStarters ≡ₚ SAMPLE_STARTERS
  | JudgeStarter _ randomIndex =>
      bonuses g ≠ [] → randomIndex < length (bonuses g)
  | _ => True
  end.

Inductive reachable : Game → Prop :=
  | reachable_init savedStats : reachable (init savedStats)
  | reachable_dispatch now e g :
      reachable g → env_ok g e → reachable (dispatch now e g).

(** A run: the events in order, each with its clock reading. *)
Fixpoint run (tr : list (Z * event)) (g : Game) : Game :=
  match tr with
  | [] => g
  | (now, e) :: tr' => run tr' (dispatch now e g)
  end.

End Component.

Arguments init : clear implicits.
Arguments dispatch : clear implicits.
Arguments run : clear implicits.
Arguments env_ok : clear implicits.
Arguments reachable : clear implicits.
Arguments handler : clear implicits.

(** ** Observations on a run *)

Definition is_start (e : event) : bool :=
  match e with Start _ => true | _ => false end.

(** A run within one round: no new game is started in it. *)
Definition one_round (tr : list (Z * event)) : Prop :=
  Forall (λ ne, is_start ne.2 = false) tr.

Section Observations.

Variable SAMPLE_BONUSES : list BonusSet.

(** The event ends a starter presentation: the game leaves 'playing' for
    'answer' (by a buzz or by the timer running out). *)
Definition completes_presentation (now : Z) (e : event) (g : Game) : bool :=
  bool_decide (gameState g = Playing) &&
  bool_decide (gameState (dispatch SAMPLE_BONUSES now e g) = Answer).

Fixpoint presentationCycles (tr : list (Z * event)) (g : Game) : nat :=
  match tr with
  | [] => 0
  | (now, e) :: tr' =>
      (if completes_presentation now e g then 1 else 0) +
      presentationCycles tr' (dispatch SAMPLE_BONUSES now e g)
  end.

(** The bonus set the event selects for presentation, if it makes the
    game enter 'bonus'. *)
Definition drawn (now : Z) (e : event) (g : Game) : list BonusSet :=
  let g' := dispatch SAMPLE_BONUSES now e g in
  if bool_decide (gameState g ≠ Bonus) && bool_decide (gameState g' = Bonus)
  then option_list (currentBonusSet g')
  else [].

Fixpoint draws (tr : list (Z * event)) (g : Game) : list BonusSet :=
  match tr with
  | [] => []
  | (now, e) :: tr' =>
      drawn now e g ++ draws tr' (dispatch SAMPLE_BONUSES now e g)
  end.

End Observations.

(** The counters and cells a stuck bonus round leaves untouched. *)
Definition same_round_state (g g' : Game) : Prop :=
  gameState g' = gameState g ∧ score g' = score g ∧
  correctBonuses g' = correctBonuses g ∧ totalBonuses g' = totalBonuses g ∧
  correctStarters g' = correctStarters g ∧ totalStarters g' = totalStarters g ∧
  incorrectBuzzes g' = incorrectBuzzes g ∧
  currentBonus g' = currentBonus g ∧ currentBonusSet g' = currentBonusSet g ∧
  bonuses g' = bonuses g ∧ starters g' = starters g ∧
  statistics g' = statistics g.

(** The cells of the game proper, which neither rendering nor the
    statistics effect writes. *)
Definition same_play (p g : Game) : Prop :=
  starters g = starters p ∧ bonuses g = bonuses p ∧
  gameState g = gameState p ∧ currentQuestion g = currentQuestion p ∧
  score g = score p ∧ currentBonus g = currentBonus p ∧
  buzzTimes g = buzzTimes p ∧ showBonusAnswer g = showBonusAnswer p ∧
  incorrectBuzzes g = incorrectBuzzes p ∧
  correctStarters g = correctStarters p ∧ totalStarters g = totalStarters p ∧
  correctBonuses g = correctBonuses p ∧ totalBonuses g = totalBonuses p ∧
  currentBonusSet g = currentBonusSet p.

Section Bookkeeping.

Variable SAMPLE_STARTERS : list Question.

(** The bookkeeping of a round: every presented starter is either still
    in the pool awaiting its judgment or has been removed; the interval
    is live exactly while a starter is presented. *)
Definition round_inv (g : Game) : Prop :=
  correctBonuses g ≤ totalBonuses g ∧
  (timerInterval g = true → gameState g = Playing ∧ mounted g = true) ∧
  (gameState g = Playing → mounted g = true →
     timerInterval g = true ∧ is_Some (starters g !! currentQuestion g)) ∧
  starters g ⊆+ SAMPLE_STARTERS ∧
  match gameState g with
  | Answer =>
      correctStarters g < totalStarters g ∧
      totalStarters g + length (starters g) = length SAMPLE_STARTERS + 1 ∧
      is_Some (starters g !! currentQuestion g)
  | _ =>
      correctStarters g ≤ totalStarters g ∧
      totalStarters g + length (starters g) = length SAMPLE_STARTERS
  end.

(** The same bookkeeping on a pending state, before it is rendered. *)
Definition pending_inv (p : Game) : Prop :=
  correctBonuses p ≤ totalBonuses p ∧
  (timerInterval p = true → gameState p = Playing) ∧
  (gameState p = Playing → timerInterval p = true) ∧
  mounted p = true ∧
  starters p ⊆+ SAMPLE_STARTERS ∧
  match gameState p with
  | Answer =>
      correctStarters p < totalStarters p ∧
      totalStarters p + length (starters p) = length SAMPLE_STARTERS + 1 ∧
      is_Some (starters p !! currentQuestion p)
  | _ =>
      correctStarters p ≤ totalStarters p ∧
      totalStarters p + length (starters p) = length SAMPLE_STARTERS
  end.

(** The part of the environment's promise the bookkeeping rests on. *)
Definition start_ok (e : event) : Prop :=
  match e with
  | Start shuffledStarters => shuffledStarters ≡ₚ SAMPLE_STARTERS
  | _ => True
  end.

End Bookkeeping.

(** ** Sample data for the worked examples *)

Definition starter_mars : Question :=
  MkQuestion "Which planet is known as the Red Planet?" "Mars" 10.

Definition starter_hamlet : Question :=
  MkQuestion "Who wrote the play Hamlet?" "William Shakespeare" 10.

Definition bonus_rivers : BonusSet :=
  MkBonusSet "Rivers"
    [MkBonusQuestion "Which river flows through Paris?" "The Seine";
     MkBonusQuestion "Which river flows through Cairo?" "The Nile";
     MkBonusQuestion "Which river flows through Vienna?" "The Danube"].

Definition bonus_elements : BonusSet :=
  MkBonusSet "Chemical elements"
    [MkBonusQuestion "Which element has the symbol Fe?" "Iron";
     MkBonusQuestion "Which element has the symbol Au?" "Gold";
     MkBonusQuestion "Which element has the symbol Na?" "Sodium"].

(** Scenario: one starter, one bonus set; buzz, correct, then reveal and
    mark correct three times. *)
Definition scenario_one_bonus_set : list (Z * event) :=
  [(0, Start [starter_mars]); (2500, Buzz); (4000, JudgeStarter true 0);
   (5000, RevealBonusAnswer); (6000, JudgeBonus true);
   (7000, RevealBonusAnswer); (8000, JudgeBonus true);
   (9000, RevealBonusAnswer); (10000, JudgeBonus true)]%Z.

(** Scenario: one starter, no bonus set; buzz, correct. *)
Definition scenario_no_bonus_set : list (Z * event) :=
  [(0, Start [starter_mars]); (2500, Buzz); (4000, JudgeStarter true 0)]%Z.

Definition bank_starters : list Question := [starter_mars; starter_hamlet].
Definition bank_bonuses : list BonusSet := [bonus_rivers; bonus_elements].

(** A game in progress on the sample bank. *)
Definition game_ready : Game := init bank_starters bank_bonuses None.
Definition game_playing : Game :=
  dispatch bank_bonuses 0 (Start [starter_hamlet; starter_mars]) game_ready.
Definition game_answer : Game := dispatch bank_bonuses 2500 Buzz game_playing.
Definition game_bonus : Game :=
  dispatch bank_bonuses 4000 (JudgeStarter true 0) game_answer.
Definition game_session : Game :=
  dispatch bank_bonuses 4000 (JudgeStarter false 0) game_answer.

(** A starter with a negative point value, and a game on a bank that
    holds it, after the buzz. *)
Definition starter_penalty : Question :=
  MkQuestion "Which element has the symbol Zz?" "None" (-5).

Definition game_penalty_answer : Game :=
  run bank_bonuses [(0, Start [starter_penalty]); (2500, Buzz)]%Z
    (init [starter_penalty] bank_bonuses None).

(** The counters of the judgments, the buzz times, the bonus cells and
    the stored history, on a pending state or a rendered one. *)
Definition play_inv (SAMPLE_BONUSES : list BonusSet) (g : Game) : Prop :=
  (if bool_decide (gameState g = Answer)
   then correctStarters g + incorrectBuzzes g + 1 = totalStarters g
   else correctStarters g + incorrectBuzzes g = totalStarters g) ∧
  length (buzzTimes g) ≤ totalStarters g ∧
  currentBonus g ≤ 2 ∧
  (∀ b, currentBonusSet g = Some b → b ∈ SAMPLE_BONUSES) ∧
  bonuses g ⊆+ SAMPLE_BONUSES ∧
  statistics g = default [] (localStorage g).

(** ** The chart of the history ([renderChart]) *)

(** [arr.slice(-n)]: the last [n] elements, all of them if there are
    fewer. *)
Definition slice_last {A} (n : nat) (arr : list A) : list A :=
  drop (length arr - n) arr.

(** [showAllHistory ? validStats : validStats.slice(-10)] *)
Definition displayedStats (showAllHistory : bool)
    (validStats : list GameStatistics) : list GameStatistics :=
  if showAllHistory then validStats else slice_last 10 validStats.

(** [total ? (correct / total) * 100 : 0], as an exact quotient. *)
Definition percentCorrect (correct total : nat) : Q :=
  if total =? 0 then 0%Q
  else (inject_Z (Z.of_nat correct) / inject_Z (Z.of_nat total) * 100)%Q.

(** A row of [chartData], without the formatted date. *)
Record ChartRow := MkChartRow {
  row_avgBuzzTime : Q;
  row_score : Z;
  row_startersCorrect : Q;
  row_bonusesCorrect : Q
}.

Definition chartRow (stat : GameStatistics) : ChartRow :=
  {| row_avgBuzzTime := (stat_avgBuzzTime stat / 1000)%Q;
     row_score := stat_score stat;
     row_startersCorrect :=
       percentCorrect (stat_correctStarters stat) (stat_totalStarters stat);
     row_bonusesCorrect :=
       percentCorrect (stat_correctBonuses stat) (stat_totalBonuses stat) |}.

Definition chartData (showAllHistory : bool)
    (validStats : list GameStatistics) : list ChartRow :=
  chartRow <$> displayedStats showAllHistory validStats.

(** An entry whose correct counts do not exceed its totals. *)
Definition stat_consistent (stat : GameStatistics) : Prop :=
  stat_correctStarters stat ≤ stat_totalStarters stat ∧
  stat_correctBonuses stat ≤ stat_totalBonuses stat.

(** ** Array lemmas *)

Lemma filter_index_above {A} (k i : nat) (arr : list A) :
  k < i → filter_index (λ index, negb (index =? k)) i arr = arr.
Proof.
  revert i. induction arr as [|x rest IH]; intros i Hi; cbn [filter_index]; [done|].
  destruct (Nat.eqb_spec i k); [lia|]. cbn [negb]. f_equal. apply IH. lia.
Qed.

Lemma filter_index_shift {A} (k i : nat) (arr : list A) :
  filter_index (λ index, negb (index =? k + i)) i arr = delete k arr.
Proof.
  revert k i. induction arr as [|x rest IH]; intros k i; cbn [filter_index].
  - by destruct k.
  - destruct (Nat.eqb_spec i (k + i)) as [Heq|Hne]; cbn [negb].
    + assert (k = 0) as -> by lia. cbn [delete list_delete Nat.add].
      apply filter_index_above. lia.
    + destruct k as [|k]; [lia|]. cbn [delete list_delete]. f_equal.
      replace (S k + i) with (k + S i) by lia. apply IH.
Qed.

Lemma filter_index_ne_delete {A} (k : nat) (arr : list A) :
  filter_index_ne k arr = delete k arr.
Proof.
  unfold filter_index_ne. rewrite <- (filter_index_shift k 0 arr).
  by rewrite Nat.add_0_r.
Qed.

Lemma reduce_sum_foldr (arr : list Z) :
  reduce_sum arr = foldr Z.add 0%Z arr.
Proof.
  unfold reduce_sum.
  assert (H : ∀ acc, fold_left Z.add arr acc = (acc + foldr Z.add 0 arr)%Z).
  { induction arr as [|x rest IH]; intros acc; simpl; [lia|].
    rewrite IH. lia. }
  rewrite H. lia.
Qed.


(** ** What a render commit leaves alone *)

Lemma commit_same_play now r p : same_play p (commit now r p).
Proof.
  unfold commit, unmount, statsEffect, clearInterval, and_then, skip, to.
  repeat case_match; by repeat split.
Qed.

Lemma commit_mounted now r p :
  mounted (commit now r p) = mounted p && negb (render_throws p).
Proof.
  unfold commit, unmount, statsEffect, clearInterval, and_then, skip, to.
  repeat case_match; cbn; by rewrite ?andb_true_r, ?andb_false_r.
Qed.

Lemma commit_timerInterval now r p :
  timerInterval (commit now r p) = timerInterval p && negb (render_throws p).
Proof.
  unfold commit, unmount, statsEffect, clearInterval, and_then, skip, to.
  repeat case_match; cbn; rewrite ?andb_true_r, ?andb_false_r; congruence.
Qed.

(** The statistics effect appends on a change of [gameState] to 'ready'
    with a buzz recorded, and only then. *)
Lemma commit_statistics now r p :
  statistics (commit now r p) =
    (if bool_decide (gameState p ≠ gameState r) &&
        bool_decide (gameState p = Ready) && (0 <? length (buzzTimes p))
     then statistics p ++ [newStat now p] else statistics p) ∧
  localStorage (commit now r p) =
    (if bool_decide (gameState p ≠ gameState r) &&
        bool_decide (gameState p = Ready) && (0 <? length (buzzTimes p))
     then Some (statistics p ++ [newStat now p]) else localStorage p).
Proof.
  unfold commit, unmount, statsEffect, clearInterval, and_then, skip, to,
    render_throws.
  destruct (gameState p) eqn:Hp; repeat case_bool_decide; try done;
    cbn; repeat case_match; cbn; try done.
Qed.

(** The play cells of a committed render, one by one. *)
Lemma commit_starters now r p : starters (commit now r p) = starters p.
Proof. apply commit_same_play. Qed.

Lemma commit_bonuses now r p : bonuses (commit now r p) = bonuses p.
Proof. apply commit_same_play. Qed.

Lemma commit_gameState now r p : gameState (commit now r p) = gameState p.
Proof. apply commit_same_play. Qed.

Lemma commit_currentQuestion now r p : currentQuestion (commit now r p) = currentQuestion p.
Proof. apply commit_same_play. Qed.

Lemma commit_score now r p : score (commit now r p) = score p.
Proof. apply commit_same_play. Qed.

Lemma commit_currentBonus now r p : currentBonus (commit now r p) = currentBonus p.
Proof. apply commit_same_play. Qed.

Lemma commit_buzzTimes now r p : buzzTimes (commit now r p) = buzzTimes p.
Proof. apply commit_same_play. Qed.

Lemma commit_showBonusAnswer now r p : showBonusAnswer (commit now r p) = showBonusAnswer p.
Proof. apply commit_same_play. Qed.

Lemma commit_incorrectBuzzes now r p : incorrectBuzzes (commit now r p) = incorrectBuzzes p.
Proof. apply commit_same_play. Qed.

Lemma commit_correctStarters now r p : correctStarters (commit now r p) = correctStarters p.
Proof. apply commit_same_play. Qed.

Lemma commit_totalStarters now r p : totalStarters (commit now r p) = totalStarters p.
Proof. apply commit_same_play. Qed.

Lemma commit_correctBonuses now r p : correctBonuses (commit now r p) = correctBonuses p.
Proof. apply commit_same_play. Qed.

Lemma commit_totalBonuses now r p : totalBonuses (commit now r p) = totalBonuses p.
Proof. apply commit_same_play. Qed.

Lemma commit_currentBonusSet now r p : currentBonusSet (commit now r p) = currentBonusSet p.
Proof. apply commit_same_play. Qed.

Ltac commit_fields :=
  rewrite ?commit_starters, ?commit_bonuses, ?commit_gameState,
    ?commit_currentQuestion, ?commit_score, ?commit_currentBonus,
    ?commit_buzzTimes, ?commit_showBonusAnswer, ?commit_incorrectBuzzes,
    ?commit_correctStarters, ?commit_totalStarters, ?commit_correctBonuses,
    ?commit_totalBonuses, ?commit_currentBonusSet.

Lemma delete_out_of_range {A} (l : list A) (i : nat) :
  length l ≤ i → delete i l = l.
Proof.
  revert i. induction l as [|x l IH]; intros [|i] Hi; cbn in *; try done; try lia.
  f_equal. apply IH. lia.
Qed.

Lemma lookup_delete_Permutation {A} (l : list A) (i : nat) :
  option_list (l !! i) ++ delete i l ≡ₚ l.
Proof.
  destruct (l !! i) as [x|] eqn:Hx; cbn.
  - symmetry. by apply delete_Permutation.
  - apply lookup_ge_None in Hx. by rewrite delete_out_of_range.
Qed.

Lemma not_completes_presentation (gs : GameState) :
  bool_decide (gs = Playing) && bool_decide (gs = Answer) = false.
Proof. by destruct gs. Qed.

Lemma not_enters_bonus (gs : GameState) :
  bool_decide (gs ≠ Bonus) && bool_decide (gs = Bonus) = false.
Proof. by destruct gs. Qed.

(** ** Invariants of the reachable states *)

Ltac unfold_handlers :=
  unfold handler, enabled, timerCallback, handleAnswer, handleBonusAnswer,
    handleBuzz, handleNextQuestion, handleNextStep, handleTimeUp,
    startGame, startTimer, endSession, toggleSound, clearInterval,
    since_start, and_then, skip, to in *.

Ltac unfold_dispatch := unfold dispatch.

Ltac simpl_run := cbn [run].

Ltac unfold_observations := unfold completes_presentation, drawn.

Ltac split_cases :=
  repeat first
    [ progress cbn in *
    | case_bool_decide
    | case_match
    | progress simplify_eq ].

Section Properties.

Variable SAMPLE_STARTERS : list Question.
Variable SAMPLE_BONUSES : list BonusSet.

Local Abbreviation dispatch := (dispatch SAMPLE_BONUSES).
Local Abbreviation handler := (handler SAMPLE_BONUSES).
Local Abbreviation run := (run SAMPLE_BONUSES).
Local Abbreviation init := (init SAMPLE_STARTERS SAMPLE_BONUSES).
Local Abbreviation env_ok := (env_ok SAMPLE_STARTERS).
Local Abbreviation reachable := (reachable SAMPLE_STARTERS SAMPLE_BONUSES).
Local Abbreviation completes_presentation :=
  (completes_presentation SAMPLE_BONUSES).
Local Abbreviation presentationCycles := (presentationCycles SAMPLE_BONUSES).
Local Abbreviation drawn := (drawn SAMPLE_BONUSES).
Local Abbreviation draws := (draws SAMPLE_BONUSES).
Local Abbreviation round_inv := (round_inv SAMPLE_STARTERS).
Local Abbreviation pending_inv := (pending_inv SAMPLE_STARTERS).
Local Abbreviation start_ok := (start_ok SAMPLE_STARTERS).

Lemma pending_inv_commit now r p : pending_inv p → round_inv (commit now r p).
Proof.
  intros (HB & HT & HP & Hm & HS & HG).
  unfold round_inv.
  destruct (commit_same_play now r p)
    as (-> & _ & -> & -> & _ & _ & _ & _ & _ & -> & -> & -> & -> & _).
  rewrite commit_mounted, commit_timerInterval, Hm.
  split_and!; try done.
  - intros [Ht Hr]%andb_prop. split; [by apply HT|]. by rewrite Hr.
  - intros Hg [_ Hr]%andb_prop. rewrite Hr, andb_true_r.
    split; [by apply HP|]. apply negb_true_iff in Hr.
    unfold render_throws in Hr. rewrite Hg in Hr.
    apply bool_decide_eq_false in Hr. by apply not_eq_None_Some.
Qed.

Lemma env_ok_start_ok g e : env_ok g e → start_ok e.
Proof. by destruct e. Qed.

Lemma one_round_start_ok now e tr : one_round ((now, e) :: tr) → start_ok e.
Proof. intros Hr. apply Forall_cons in Hr as [He _]. by destruct e. Qed.

Lemma pending_inv_handler now e r :
  round_inv r → mounted r = true → enabled r e = true → start_ok e →
  pending_inv (handler now e r r).
Proof.
  intros (HB & HT & HP & HS & HG) Hm Hen He.
  destruct (timerInterval r) eqn:Hti;
    [destruct HT as [HgP _]; [done|]|clear HT].
  all: destruct e; unfold_handlers; unfold pending_inv.
  all: split_cases; try done.
  all: rewrite ?filter_index_ne_delete in *.
  all: repeat match goal with
       | H : _ ≡ₚ _ |- _ =>
           pose proof (Permutation_length H);
           apply Permutation_submseteq in H
       | H : ?l !! ?i = Some _ |- _ =>
           pose proof (lookup_lt_Some _ _ _ H);
           pose proof (length_delete l i (mk_is_Some _ _ H));
           apply mk_is_Some in H
       | H : ?c → ?d → _ ∧ _ |- _ =>
           let Hc := fresh in assert (Hc : c) by done;
           let Hd := fresh in assert (Hd : d) by done; specialize (H Hc Hd)
       | H : _ ∧ _ |- _ => destruct H
       end.
  all: split_and!; intros; try done; try lia; try congruence.
  all: try (etrans; [apply submseteq_delete|done]).
Qed.


Lemma round_inv_init savedStats : round_inv (init savedStats).
Proof.
  unfold round_inv; cbn. split_and!; try done; lia.
Qed.

Lemma round_inv_dispatch now e g :
  round_inv g → start_ok e → round_inv (dispatch now e g).
Proof.
  intros Hinv He. unfold_dispatch.
  destruct (mounted g) eqn:Hm; cbn [negb]; [|done].
  destruct (enabled g e) eqn:Hen; cbn [negb]; [|done].
  by apply pending_inv_commit, pending_inv_handler.
Qed.

Lemma reachable_round_inv g : reachable g → round_inv g.
Proof.
  induction 1 as [savedStats|now e g _ IH He].
  - apply round_inv_init.
  - eapply round_inv_dispatch; [done|by eapply env_ok_start_ok].
Qed.

Lemma totalStarters_dispatch now e g :
  round_inv g → is_start e = false →
  totalStarters (dispatch now e g) =
  totalStarters g + (if completes_presentation now e g then 1 else 0).
Proof.
  intros (_ & HT & _) He. unfold_observations; unfold_dispatch.
  destruct (mounted g) eqn:Hm; cbn [negb];
    [|rewrite not_completes_presentation; lia].
  destruct (enabled g e) eqn:Hen; cbn [negb];
    [|rewrite not_completes_presentation; lia].
  destruct (commit_same_play now g (handler now e g g))
    as (_ & _ & -> & _ & _ & _ & _ & _ & _ & _ & -> & _).
  destruct (timerInterval g) eqn:Hti;
    [destruct HT as [HgP _]; [done|]|clear HT].
  all: destruct e; try done; unfold_handlers.
  all: split_cases; try done; try lia; try congruence.
Qed.

Lemma score_dispatch now e g :
  Forall (λ q, (0 ≤ points q)%Z) (starters g) → is_start e = false →
  (score g ≤ score (dispatch now e g))%Z.
Proof.
  intros Hpts He. unfold_dispatch.
  destruct (mounted g) eqn:Hm; cbn [negb]; [|lia].
  destruct (enabled g e) eqn:Hen; cbn [negb]; [|lia].
  destruct (commit_same_play now g (handler now e g g))
    as (_ & _ & _ & _ & -> & _).
  destruct e; try done; unfold_handlers.
  all: split_cases; try done; try lia.
  all: match goal with
       | H : starters _ !! _ = Some _ |- _ =>
           apply (Forall_lookup_1 _ _ _ _ Hpts) in H; cbn in H; lia
       end.
Qed.

Lemma drawn_dispatch now e g :
  is_start e = false →
  drawn now e g ++ bonuses (dispatch now e g) ≡ₚ bonuses g.
Proof.
  intros He. unfold_observations; unfold_dispatch.
  destruct (mounted g) eqn:Hm; cbn [negb];
    [|by rewrite not_enters_bonus].
  destruct (enabled g e) eqn:Hen; cbn [negb];
    [|by rewrite not_enters_bonus].
  destruct (commit_same_play now g (handler now e g g))
    as (_ & -> & -> & _ & _ & _ & _ & _ & _ & _ & _ & _ & _ & ->).
  destruct e; try done; unfold_handlers.
  all: split_cases; try done.
  all: rewrite ?filter_index_ne_delete.
  all: try congruence.
  apply lookup_delete_Permutation.
Qed.

Lemma round_inv_run tr g : round_inv g → one_round tr → round_inv (run tr g).
Proof.
  revert g. induction tr as [|[now e] tr IH]; intros g Hg Hr; [done|].
  cbn. apply IH.
  - apply round_inv_dispatch; [done|by eapply one_round_start_ok].
  - by apply Forall_cons in Hr as [_ ?].
Qed.

Lemma totalStarters_run tr g :
  round_inv g → one_round tr →
  totalStarters (run tr g) = totalStarters g + presentationCycles tr g.
Proof.
  revert g. induction tr as [|[now e] tr IH]; intros g Hg Hr; cbn; [lia|].
  pose proof (one_round_start_ok _ _ _ Hr) as He.
  apply Forall_cons in Hr as [Hs Hr]. cbn in Hs.
  rewrite IH by (try apply round_inv_dispatch; done).
  rewrite totalStarters_dispatch by done. lia.
Qed.

Lemma round_inv_bound g :
  round_inv g → totalStarters g ≤ length SAMPLE_STARTERS.
Proof.
  intros (_ & _ & _ & _ & HG).
  destruct (gameState g); try lia.
  destruct HG as (_ & Hlen & Hq%lookup_lt_is_Some). lia.
Qed.

Lemma draws_run tr g :
  one_round tr → draws tr g ++ bonuses (run tr g) ≡ₚ bonuses g.
Proof.
  revert g. induction tr as [|[now e] tr IH]; intros g Hr; cbn; [done|].
  apply Forall_cons in Hr as [Hs Hr]. cbn in Hs.
  rewrite <- (assoc (++)), (IH (dispatch now e g)) by done.
  by apply drawn_dispatch.
Qed.

(** What [Start] leaves in a mounted component showing 'ready'. *)
Lemma dispatch_Start now sh g :
  mounted g = true → gameState g = Ready →
  let g1 := dispatch now (Start sh) g in
  gameState g1 = Playing ∧ starters g1 = sh ∧ bonuses g1 = SAMPLE_BONUSES ∧
  score g1 = 0%Z ∧ buzzTimes g1 = [] ∧ incorrectBuzzes g1 = 0 ∧
  correctStarters g1 = 0 ∧ totalStarters g1 = 0 ∧
  correctBonuses g1 = 0 ∧ totalBonuses g1 = 0.
Proof.
  intros Hm Hg. cbn zeta. unfold_dispatch. rewrite Hm. cbn [negb enabled].
  rewrite bool_decide_eq_true_2 by done. cbn [negb].
  destruct (commit_same_play now g (handler now (Start sh) g g))
    as (-> & -> & -> & _ & -> & _ & -> & _ & -> & -> & -> & -> & -> & _).
  by cbn.
Qed.

(** C6. In every reachable state the number of correct starters is at
    most the number of starters presented, and the number of correct
    bonus answers is at most the number of bonus answers judged. *)
Theorem correct_le_total g :
  reachable g →
  correctStarters g ≤ totalStarters g ∧ correctBonuses g ≤ totalBonuses g.
Proof.
  intros Hg. destruct (reachable_round_inv g Hg) as (HB & _ & _ & _ & HG).
  split; [|done]. destruct (gameState g); lia.
Qed.

(** C7. Over a round, that is the run that follows a [Start] accepted in
    'ready', [totalStarters] is the number of presentations that were
    completed, by a buzz or by the timer, and it never exceeds the size
    of the starter bank the round was dealt from. *)
Theorem totalStarters_counts_presentations g0 now sh tr :
  reachable g0 → mounted g0 = true → gameState g0 = Ready →
  sh ≡ₚ SAMPLE_STARTERS → one_round tr →
  let g1 := dispatch now (Start sh) g0 in
  totalStarters (run tr g1) = presentationCycles tr g1 ∧
  totalStarters (run tr g1) ≤ length SAMPLE_STARTERS.
Proof.
  intros Hg0 Hm Hr Hsh Htr g1.
  assert (Hinv : round_inv g1).
  { apply round_inv_dispatch; [by apply reachable_round_inv|done]. }
  destruct (dispatch_Start now sh g0 Hm Hr)
    as (_ & _ & _ & _ & _ & _ & _ & Htot & _).
  split.
  - rewrite totalStarters_run by done. subst g1. by rewrite Htot.
  - by apply round_inv_bound, round_inv_run.
Qed.

(** C8. Over a round the bonus sets drawn, together with the sets left
    in the pool, are exactly the sets of the bank: a set that was drawn
    is no longer in the pool, and no set is drawn twice. *)
Theorem bonus_draws_distinct g0 now sh tr :
  mounted g0 = true → gameState g0 = Ready → one_round tr →
  let g1 := dispatch now (Start sh) g0 in
  draws tr g1 ++ bonuses (run tr g1) ≡ₚ SAMPLE_BONUSES ∧
  (NoDup SAMPLE_BONUSES →
     NoDup (draws tr g1) ∧
     ∀ b, b ∈ draws tr g1 → b ∉ bonuses (run tr g1)).
Proof.
  intros Hm Hr Htr g1.
  destruct (dispatch_Start now sh g0 Hm Hr) as (_ & _ & Hbo & _).
  assert (Hperm : draws tr g1 ++ bonuses (run tr g1) ≡ₚ SAMPLE_BONUSES).
  { rewrite (draws_run tr g1 Htr). subst g1. by rewrite Hbo. }
  split; [done|]. intros Hnd. rewrite <- Hperm in Hnd.
  apply NoDup_app in Hnd as (? & ? & _). by split.
Qed.

(** C9 (amended). With point values that are not negative, no event
    other than the start of a new game lowers the score. *)
Theorem score_never_decreases now e g :
  Forall (λ q, (0 ≤ points q)%Z) SAMPLE_STARTERS →
  reachable g → is_start e = false →
  (score g ≤ score (dispatch now e g))%Z.
Proof.
  intros Hpts Hg He. apply score_dispatch; [|done].
  destruct (reachable_round_inv g Hg) as (_ & _ & _ & HS & _).
  rewrite Forall_forall in Hpts |- *. intros q Hq. apply Hpts.
  by eapply elem_of_submseteq.
Qed.

(** A handler that takes the game to 'ready' from another state writes
    neither the buzz times nor any counter. *)
Lemma handler_enters_ready now e g :
  enabled g e = true → gameState g ≠ Ready →
  gameState (handler now e g g) = Ready →
  buzzTimes (handler now e g g) = buzzTimes g ∧
  statistics (handler now e g g) = statistics g ∧
  localStorage (handler now e g g) = localStorage g ∧
  score (handler now e g g) = score g ∧
  incorrectBuzzes (handler now e g g) = incorrectBuzzes g ∧
  correctStarters (handler now e g g) = correctStarters g ∧
  totalStarters (handler now e g g) = totalStarters g ∧
  correctBonuses (handler now e g g) = correctBonuses g ∧
  totalBonuses (handler now e g g) = totalBonuses g.
Proof.
  intros Hen Hg.
  destruct e; unfold_handlers; split_cases; try done.
  match goal with
  | H : starters g !! _ = Some _ |- _ =>
      exfalso; apply lookup_lt_Some in H; lia
  end.
Qed.

Lemma getAverageBuzzTime_mean (l : list Z) :
  l ≠ [] →
  (getAverageBuzzTime l * inject_Z (Z.of_nat (length l)) ==
   inject_Z (foldr Z.add 0%Z l))%Q.
Proof.
  intros Hl. unfold getAverageBuzzTime.
  destruct l as [|x l]; [done|]. cbn [length Nat.eqb].
  rewrite reduce_sum_foldr, Qmult_comm. apply Qmult_div_r.
  change 0%Q with (inject_Z 0). rewrite inject_Z_injective. lia.
Qed.

(** C4. When an event takes the game from another state to 'ready' and
    a buzz time was recorded, exactly one entry is appended to the
    statistics and written to the store; it carries the counters of the
    round and the mean of the buzz times.  With no buzz time recorded
    nothing is appended, and the average is 0. *)
Theorem stats_appended_on_entering_ready now e g :
  gameState g ≠ Ready → gameState (dispatch now e g) = Ready →
  let g' := dispatch now e g in
  let entry :=
    {| stat_id := now;
       stat_date := now;
       stat_avgBuzzTime := getAverageBuzzTime (buzzTimes g);
       stat_score := score g;
       stat_incorrectBuzzes := incorrectBuzzes g;
       stat_correctStarters := correctStarters g;
       stat_totalStarters := totalStarters g;
       stat_correctBonuses := correctBonuses g;
       stat_totalBonuses := totalBonuses g |} in
  (buzzTimes g ≠ [] →
     statistics g' = statistics g ++ [entry] ∧
     localStorage g' = Some (statistics g ++ [entry]) ∧
     (stat_avgBuzzTime entry * inject_Z (Z.of_nat (length (buzzTimes g))) ==
      inject_Z (foldr Z.add 0%Z (buzzTimes g)))%Q) ∧
  (buzzTimes g = [] →
     statistics g' = statistics g ∧ localStorage g' = localStorage g ∧
     getAverageBuzzTime (buzzTimes g) = 0%Q).
Proof.
  intros Hg. cbn zeta. unfold_dispatch.
  destruct (mounted g) eqn:Hm; cbn [negb]; [|done].
  destruct (enabled g e) eqn:Hen; cbn [negb]; [|done].
  destruct (commit_same_play now g (handler now e g g))
    as (_ & _ & -> & _).
  intros Hp.
  destruct (commit_statistics now g (handler now e g g)) as [-> ->].
  unfold newStat.
  destruct (handler_enters_ready now e g Hen Hg Hp)
    as (-> & -> & -> & -> & -> & -> & -> & -> & ->).
  rewrite Hp, !bool_decide_eq_true_2 by done. cbn [andb].
  split.
  - intros Hb.
    assert ((0 <? length (buzzTimes g)) = true) as ->
      by (by destruct (buzzTimes g)).
    split_and!; try done. cbn [stat_avgBuzzTime].
    by apply getAverageBuzzTime_mean.
  - by intros ->.
Qed.

(** C3. In 'bonus', a judgment of the sub-question before its answer
    was revealed changes nothing. *)
Theorem judgeBonus_before_reveal_rejected now correct g :
  gameState g = Bonus → showBonusAnswer g = false →
  dispatch now (JudgeBonus correct) g = g.
Proof.
  intros Hg Hs. unfold_dispatch. cbn [enabled].
  rewrite Hs, andb_false_r. cbn [negb]. by destruct (mounted g).
Qed.

Lemma dispatch_enabled now e g :
  mounted g = true → enabled g e = true →
  dispatch now e g = commit now g (handler now e g g).
Proof. intros Hm Hen. unfold_dispatch. by rewrite Hm, Hen. Qed.

Lemma handler_Tick_expired now g :
  (STARTER_TIME_LIMIT ≤ since_start now g)%Z →
  let p := handler now Tick g g in
  gameState p = Answer ∧ totalStarters p = totalStarters g + 1 ∧
  buzzTimes p = buzzTimes g ∧ incorrectBuzzes p = incorrectBuzzes g ∧
  starters p = starters g ∧ currentQuestion p = currentQuestion g ∧
  mounted p = mounted g.
Proof.
  intros Hlim%Z.leb_le. cbn [handler]. unfold timerCallback.
  rewrite Hlim. by cbn.
Qed.

Lemma handler_JudgeStarter_incorrect now randomIndex g q :
  starters g !! currentQuestion g = Some q →
  let p := handler now (JudgeStarter false randomIndex) g g in
  gameState p = Session ∧ incorrectBuzzes p = incorrectBuzzes g + 1 ∧
  totalStarters p = totalStarters g ∧ buzzTimes p = buzzTimes g ∧
  mounted p = mounted g.
Proof.
  intros Hq. cbn [handler]. unfold handleAnswer. rewrite Hq. by cbn.
Qed.

(** C5. A tick at or past the time limit, in 'playing', shows the answer,
    counts the starter and records no buzz time; marking the answer
    incorrect then leads to the round summary with one more incorrect
    buzz. *)
Theorem timeout_then_incorrect now now' randomIndex g :
  reachable g → mounted g = true → gameState g = Playing →
  (STARTER_TIME_LIMIT ≤ since_start now g)%Z →
  let g1 := dispatch now Tick g in
  let g2 := dispatch now' (JudgeStarter false randomIndex) g1 in
  gameState g1 = Answer ∧ totalStarters g1 = totalStarters g + 1 ∧
  buzzTimes g1 = buzzTimes g ∧
  gameState g2 = Session ∧ incorrectBuzzes g2 = incorrectBuzzes g + 1 ∧
  totalStarters g2 = totalStarters g + 1 ∧ buzzTimes g2 = buzzTimes g.
Proof.
  intros Hr Hm Hg Hlim g1 g2.
  destruct (reachable_round_inv g Hr) as (_ & _ & HP & _).
  destruct (HP Hg Hm) as [Hti [q Hq]].
  destruct (handler_Tick_expired now g Hlim)
    as (Hp1 & Hp2 & Hp3 & Hp4 & Hp5 & Hp6 & Hp7).
  assert (Hg1 : g1 = commit now g (handler now Tick g g))
    by (by apply dispatch_enabled).
  pose proof (commit_same_play now g (handler now Tick g g))
    as (Hst & _ & Hgs & Hcq & _ & _ & Hbt & _ & Hib & _ & Hts & _).
  pose proof (commit_mounted now g (handler now Tick g g)) as Hmo.
  assert (Hrt : render_throws (handler now Tick g g) = false).
  { unfold render_throws. rewrite Hp1, Hp5, Hp6, Hq.
    by apply bool_decide_eq_false. }
  rewrite Hrt, Hp7, Hm in Hmo. rewrite <- Hg1 in Hst, Hgs, Hcq, Hbt, Hib, Hts, Hmo.
  rewrite Hp1 in Hgs. rewrite Hp2 in Hts. rewrite Hp3 in Hbt.
  rewrite Hp4 in Hib. rewrite Hp5 in Hst. rewrite Hp6 in Hcq.
  assert (Hq1 : starters g1 !! currentQuestion g1 = Some q) by congruence.
  destruct (handler_JudgeStarter_incorrect now' randomIndex g1 q Hq1)
    as (Hj1 & Hj2 & Hj3 & Hj4 & _).
  assert (Hg2 : g2 = commit now' g1
                       (handler now' (JudgeStarter false randomIndex) g1 g1)).
  { apply dispatch_enabled; [done|]. cbn [enabled].
    by apply bool_decide_eq_true_2. }
  pose proof (commit_same_play now' g1
                (handler now' (JudgeStarter false randomIndex) g1 g1))
    as (_ & _ & Hgs2 & _ & _ & _ & Hbt2 & _ & Hib2 & _ & Hts2 & _).
  rewrite <- Hg2 in Hgs2, Hbt2, Hib2, Hts2.
  split_and!; congruence.
Qed.

(** The judgment handler does nothing when the captured pool is empty. *)
Lemma handleBonusAnswer_empty_pool g correct p :
  bonuses g = [] → handleBonusAnswer g correct p = p.
Proof. intros Hb. unfold handleBonusAnswer. by rewrite Hb. Qed.

Lemma same_round_state_refl g : same_round_state g g.
Proof. by repeat split. Qed.

Lemma same_round_state_trans g1 g2 g3 :
  same_round_state g1 g2 → same_round_state g2 g3 → same_round_state g1 g3.
Proof.
  unfold same_round_state. intros H12 H23. destruct_and!.
  split_and!; congruence.
Qed.

(** In 'bonus' with an empty pool and no live interval, no event changes
    the round. *)
Lemma stuck_dispatch now e g :
  gameState g = Bonus → bonuses g = [] → timerInterval g = false →
  same_round_state g (dispatch now e g) ∧
  timerInterval (dispatch now e g) = false.
Proof.
  intros Hg Hb Hti. unfold_dispatch.
  destruct (mounted g) eqn:Hm; cbn [negb]; [|by split; [repeat split|]].
  destruct (enabled g e) eqn:Hen; cbn [negb]; [|by split; [repeat split|]].
  unfold same_round_state.
  destruct (commit_same_play now g (handler now e g g))
    as (-> & -> & -> & _ & -> & -> & _ & _ & -> & -> & -> & -> & -> & ->).
  destruct (commit_statistics now g (handler now e g g)) as [-> _].
  rewrite commit_timerInterval.
  destruct e; unfold_handlers; rewrite ?Hb; cbn; rewrite ?Hti.
  all: split_cases; try done; try congruence.
Qed.

Lemma stuck_run tr g :
  gameState g = Bonus → bonuses g = [] → timerInterval g = false →
  same_round_state g (run tr g).
Proof.
  revert g. induction tr as [|[now e] tr IH]; intros g Hg Hb Hti; cbn.
  - apply same_round_state_refl.
  - destruct (stuck_dispatch now e g Hg Hb Hti) as [Hs Hti'].
    eapply same_round_state_trans; [done|].
    destruct Hs as (Hg' & _ & _ & _ & _ & _ & _ & _ & _ & Hb' & _).
    apply IH; congruence.
Qed.

(** C10. With an empty pool captured, the judgment handler of a bonus
    sub-question returns without any update; so once the last set of the
    pool has been drawn the game stays in 'bonus' whatever happens, with
    no sub-question counted and the sub-question index where it was. *)
Theorem judgeBonus_noop_when_pool_empty g :
  bonuses g = [] →
  (∀ correct p, handleBonusAnswer g correct p = p) ∧
  (reachable g → gameState g = Bonus →
   ∀ tr, same_round_state g (run tr g)).
Proof.
  intros Hb. split.
  - intros correct p. by apply handleBonusAnswer_empty_pool.
  - intros Hr Hg tr. apply stuck_run; try done.
    destruct (reachable_round_inv g Hr) as (_ & HT & _).
    destruct (timerInterval g); [|done].
    destruct HT as [HP _]; [done|congruence].
Qed.

(** ** The transitions, one by one *)

Ltac decide_tests :=
  repeat first
    [ progress cbn
    | rewrite bool_decide_eq_true_2 by done
    | rewrite bool_decide_eq_false_2 by done
    | rewrite andb_false_r
    | rewrite andb_true_r ].

Ltac enter_handler now e g :=
  rewrite (dispatch_enabled now e g);
  [ let Hs := fresh in let Hl := fresh in
    destruct (commit_statistics now g (handler now e g g)) as [Hs Hl];
    rewrite ?Hs, ?Hl; clear Hs Hl;
    rewrite ?commit_mounted, ?commit_timerInterval; commit_fields;
    unfold render_throws; unfold_handlers
  | done
  | cbn [enabled]; decide_tests; try done ].

(** [Buzz] in 'playing'. *)
Lemma dispatch_Buzz now g :
  mounted g = true → gameState g = Playing →
  is_Some (starters g !! currentQuestion g) →
  let g' := dispatch now Buzz g in
  gameState g' = Answer ∧ mounted g' = true ∧
  buzzTimes g' = buzzTimes g ++ [since_start now g] ∧
  totalStarters g' = totalStarters g + 1 ∧
  starters g' = starters g ∧ currentQuestion g' = currentQuestion g ∧
  bonuses g' = bonuses g ∧ score g' = score g ∧
  correctStarters g' = correctStarters g ∧
  incorrectBuzzes g' = incorrectBuzzes g ∧
  correctBonuses g' = correctBonuses g ∧ totalBonuses g' = totalBonuses g ∧
  statistics g' = statistics g.
Proof.
  intros Hm Hg [q Hq]. cbn zeta.
  enter_handler now Buzz g.
  rewrite Hg. destruct (decide (Playing ≠ Playing)) as [|_]; [done|].
  destruct (soundEnabled g); cbn; rewrite Hm, Hq; by decide_tests.
Qed.

(** [Start] with a shuffle that is not empty. *)
Lemma dispatch_Start_mounted now sh g :
  mounted g = true → gameState g = Ready → is_Some (sh !! 0) →
  let g1 := dispatch now (Start sh) g in
  mounted g1 = true ∧ currentQuestion g1 = 0 ∧ statistics g1 = statistics g.
Proof.
  intros Hm Hg [q Hq]. cbn zeta.
  enter_handler now (Start sh) g.
  cbn. rewrite Hm, Hq, Hg. by decide_tests.
Qed.

(** A correct starter with a set left in the pool. *)
Lemma dispatch_JudgeStarter_bonus now randomIndex g q b :
  mounted g = true → gameState g = Answer →
  starters g !! currentQuestion g = Some q →
  bonuses g !! randomIndex = Some b → is_Some (questions b !! 0) →
  let g' := dispatch now (JudgeStarter true randomIndex) g in
  gameState g' = Bonus ∧ mounted g' = true ∧
  score g' = (score g + points q)%Z ∧
  correctStarters g' = correctStarters g + 1 ∧
  currentBonusSet g' = Some b ∧ currentBonus g' = 0 ∧
  showBonusAnswer g' = false ∧
  bonuses g' = delete randomIndex (bonuses g) ∧
  starters g' = delete (currentQuestion g) (starters g) ∧
  totalStarters g' = totalStarters g ∧
  incorrectBuzzes g' = incorrectBuzzes g ∧
  correctBonuses g' = correctBonuses g ∧ totalBonuses g' = totalBonuses g ∧
  buzzTimes g' = buzzTimes g ∧ statistics g' = statistics g.
Proof.
  intros Hm Hg Hq Hb [b0 Hb0]. cbn zeta.
  enter_handler now (JudgeStarter true randomIndex) g.
  rewrite Hq.
  assert ((0 <? length (bonuses g)) = true) as ->
    by (apply Nat.ltb_lt; apply lookup_lt_Some in Hb; lia).
  cbn. rewrite Hm, Hb, Hb0, Hg, !filter_index_ne_delete. by decide_tests.
Qed.

(** A correct starter with no set left in the pool: the next starter is
    presented, whether or not one is left. *)
Lemma dispatch_JudgeStarter_no_bonus now randomIndex g q :
  mounted g = true → gameState g = Answer →
  starters g !! currentQuestion g = Some q → bonuses g = [] →
  let g' := dispatch now (JudgeStarter true randomIndex) g in
  gameState g' = Playing ∧
  mounted g' =
    bool_decide (is_Some (delete (currentQuestion g) (starters g) !! 0)) ∧
  score g' = (score g + points q)%Z ∧
  correctStarters g' = correctStarters g + 1 ∧
  starters g' = delete (currentQuestion g) (starters g) ∧
  currentQuestion g' = 0 ∧
  totalStarters g' = totalStarters g ∧
  incorrectBuzzes g' = incorrectBuzzes g ∧
  correctBonuses g' = correctBonuses g ∧ totalBonuses g' = totalBonuses g ∧
  buzzTimes g' = buzzTimes g ∧ statistics g' = statistics g ∧
  localStorage g' = localStorage g.
Proof.
  intros Hm Hg Hq Hb. cbn zeta.
  enter_handler now (JudgeStarter true randomIndex) g.
  rewrite Hq, Hb.
  assert ((0 <? length (starters g)) = true) as ->
    by (apply Nat.ltb_lt; apply lookup_lt_Some in Hq; lia).
  cbn. rewrite Hm, Hg, !filter_index_ne_delete. decide_tests.
  split_and!; try done.
  destruct (delete (currentQuestion g) (starters g) !! 0) eqn:Hd.
  + rewrite (bool_decide_eq_true_2 (is_Some _)) by done. by decide_tests.
  + rewrite (bool_decide_eq_false_2 (is_Some _)) by (by intros [? ?]).
    by decide_tests.
Qed.

(** [RevealBonusAnswer] only sets the reveal flag. *)
Lemma dispatch_RevealBonusAnswer now g b :
  mounted g = true → gameState g = Bonus → currentBonusSet g = Some b →
  showBonusAnswer g = false → is_Some (questions b !! currentBonus g) →
  dispatch now RevealBonusAnswer g = setShowBonusAnswer (to true) g.
Proof.
  intros Hm Hg Hb Hs [bq Hq].
  rewrite (dispatch_enabled now RevealBonusAnswer g); [|done|].
  - unfold commit, render_throws. cbn. rewrite Hg, Hb, Hq. by decide_tests.
  - cbn [enabled]. rewrite Hg, Hb, Hs. by decide_tests.
Qed.

(** A judgment of the revealed sub-question with a set left in the pool. *)
Lemma dispatch_JudgeBonus now correct g b :
  mounted g = true → gameState g = Bonus → currentBonusSet g = Some b →
  showBonusAnswer g = true → bonuses g ≠ [] →
  (currentBonus g < 2 → is_Some (questions b !! (currentBonus g + 1))) →
  let g' := dispatch now (JudgeBonus correct) g in
  mounted g' = true ∧
  score g' = (if correct then score g + 5 else score g)%Z ∧
  correctBonuses g' =
    (if correct then correctBonuses g + 1 else correctBonuses g) ∧
  totalBonuses g' = totalBonuses g + 1 ∧
  (if currentBonus g <? 2
   then gameState g' = Bonus ∧ currentBonus g' = currentBonus g + 1 ∧
        showBonusAnswer g' = false
   else gameState g' = Session ∧ currentBonus g' = currentBonus g) ∧
  currentBonusSet g' = Some b ∧ bonuses g' = bonuses g ∧
  starters g' = starters g ∧
  correctStarters g' = correctStarters g ∧
  totalStarters g' = totalStarters g ∧
  incorrectBuzzes g' = incorrectBuzzes g ∧
  buzzTimes g' = buzzTimes g ∧ statistics g' = statistics g.
Proof.
  intros Hm Hg Hb Hs Hne Hq. cbn zeta.
  enter_handler now (JudgeBonus correct) g.
  assert ((length (bonuses g) =? 0) = false) as ->
    by (apply Nat.eqb_neq; by destruct (bonuses g)).
  destruct (currentBonus g <? 2) eqn:Hlt.
  - apply Nat.ltb_lt in Hlt. destruct (Hq Hlt) as [bq Hbq].
    destruct correct; cbn; rewrite Hm, Hg, Hb, Hbq; by decide_tests.
  - destruct correct; cbn; rewrite Hm, Hg; by decide_tests.
Qed.

(** [EndSession] leaves the summary for 'ready' with the counters as
    they are. *)
Lemma dispatch_EndSession now g :
  mounted g = true → gameState g = Session →
  let g' := dispatch now EndSession g in
  gameState g' = Ready ∧ mounted g' = true ∧ score g' = score g ∧
  correctStarters g' = correctStarters g ∧
  totalStarters g' = totalStarters g ∧
  incorrectBuzzes g' = incorrectBuzzes g ∧
  correctBonuses g' = correctBonuses g ∧ totalBonuses g' = totalBonuses g.
Proof.
  intros Hm Hg. cbn zeta.
  enter_handler now EndSession g.
  cbn. rewrite Hm. by decide_tests.
Qed.

(** One sub-question of the bonus round: reveal, then judge. *)
Lemma bonus_cycle now now' correct g b :
  mounted g = true → gameState g = Bonus → currentBonusSet g = Some b →
  length (questions b) = 3 → currentBonus g ≤ 2 → bonuses g ≠ [] →
  let g' := run [(now, RevealBonusAnswer); (now', JudgeBonus correct)] g in
  mounted g' = true ∧
  score g' = (if correct then score g + 5 else score g)%Z ∧
  correctBonuses g' =
    (if correct then correctBonuses g + 1 else correctBonuses g) ∧
  totalBonuses g' = totalBonuses g + 1 ∧
  (if currentBonus g <? 2
   then gameState g' = Bonus ∧ currentBonus g' = currentBonus g + 1 ∧
        showBonusAnswer g' = false
   else gameState g' = Session ∧ currentBonus g' = currentBonus g) ∧
  currentBonusSet g' = Some b ∧ bonuses g' = bonuses g ∧
  starters g' = starters g ∧
  correctStarters g' = correctStarters g ∧
  totalStarters g' = totalStarters g ∧
  incorrectBuzzes g' = incorrectBuzzes g ∧
  buzzTimes g' = buzzTimes g ∧ statistics g' = statistics g.
Proof.
  intros Hm Hg Hb H3 Hk Hne. simpl_run.
  assert (Hq : ∀ k, k ≤ 2 → is_Some (questions b !! k))
    by (intros k Hk2; apply lookup_lt_is_Some; lia).
  assert (Hr : ∃ g1, dispatch now RevealBonusAnswer g = g1 ∧
             mounted g1 = true ∧ gameState g1 = Bonus ∧
             currentBonusSet g1 = Some b ∧ showBonusAnswer g1 = true ∧
             bonuses g1 = bonuses g ∧ currentBonus g1 = currentBonus g ∧
             score g1 = score g ∧ correctBonuses g1 = correctBonuses g ∧
             totalBonuses g1 = totalBonuses g ∧ starters g1 = starters g ∧
             correctStarters g1 = correctStarters g ∧
             totalStarters g1 = totalStarters g ∧
             incorrectBuzzes g1 = incorrectBuzzes g ∧
             buzzTimes g1 = buzzTimes g ∧ statistics g1 = statistics g).
  { destruct (showBonusAnswer g) eqn:Hs.
    - exists g. split_and!; try done.
      unfold_dispatch. cbn [enabled]. rewrite Hs, andb_false_r. cbn.
      by destruct (mounted g).
    - eexists. split; [by eapply dispatch_RevealBonusAnswer; eauto|].
      by cbn. }
  destruct Hr as (g1 & -> & Hm1 & Hg1 & Hb1 & Hs1 & Hbo & Hcb & Hsc & Hc & Ht
                  & Hst & Hcs & Hts & Hib & Hbt & Hstat).
  rewrite <- Hbo in Hne.
  destruct (dispatch_JudgeBonus now' correct g1 b Hm1 Hg1 Hb1 Hs1 Hne)
    as (? & ? & ? & ? & Hif & ? & ? & ? & ? & ? & ? & ? & ?).
  { intros Hlt. apply Hq. lia. }
  rewrite Hcb in Hif.
  split_and!; try congruence; try (destruct correct; congruence).
Qed.

Lemma run_app tr1 tr2 g : run (tr1 ++ tr2) g = run tr2 (run tr1 g).
Proof.
  revert g. induction tr1 as [|[now e] tr1 IH]; intros g; [done|]. apply IH.
Qed.

Lemma run_one now e g : run [(now, e)] g = dispatch now e g.
Proof. done. Qed.

(** The opening of a round with a single starter: start, buzz. *)
Lemma single_starter_opening now now' q g0 :
  mounted g0 = true → gameState g0 = Ready →
  let g := run [(now, Start [q]); (now', Buzz)] g0 in
  mounted g = true ∧ gameState g = Answer ∧
  starters g = [q] ∧ currentQuestion g = 0 ∧ bonuses g = SAMPLE_BONUSES ∧
  score g = 0%Z ∧ correctStarters g = 0 ∧ totalStarters g = 1 ∧
  incorrectBuzzes g = 0 ∧ correctBonuses g = 0 ∧ totalBonuses g = 0 ∧
  length (buzzTimes g) = 1 ∧ statistics g = statistics g0.
Proof.
  intros Hm Hg. simpl_run.
  destruct (dispatch_Start now [q] g0 Hm Hg)
    as (Hg1 & Hst1 & Hbo1 & Hsc1 & Hbt1 & Hib1 & Hcs1 & Hts1 & Hcb1 & Htb1).
  destruct (dispatch_Start_mounted now [q] g0 Hm Hg) as (Hm1 & Hcq1 & Hstat1);
    [by eexists|].
  set (g1 := dispatch now (Start [q]) g0) in *.
  destruct (dispatch_Buzz now' g1 Hm1 Hg1)
    as (? & ? & Hbt & ? & ? & ? & ? & ? & ? & ? & ? & ? & ?).
  { rewrite Hst1, Hcq1. by eexists. }
  rewrite Hbt1 in Hbt.
  split_and!; try congruence; [lia|by rewrite Hbt].
Qed.

(** The bonus round on a pool that keeps a set after the draw.  A round
    dealt a single starter and a pool of three-question bonus sets: a
    correct starter leads to 'bonus' with the starter's points scored.
    If the draw leaves a set in the pool, revealing and marking correct
    the three sub-questions leads to the round summary with 15 more
    points and 3 of 3 bonuses correct, and ending the session there
    leads to 'ready' with these values. *)
Theorem bonus_round_scenario (clock : nat → Z) q sh randomIndex g0 :
  SAMPLE_STARTERS = [q] → sh ≡ₚ SAMPLE_STARTERS →
  Forall (λ b, length (questions b) = 3) SAMPLE_BONUSES →
  randomIndex < length SAMPLE_BONUSES →
  mounted g0 = true → gameState g0 = Ready →
  let g1 :=
    run [(clock 0, Start sh); (clock 1, Buzz);
         (clock 2, JudgeStarter true randomIndex)] g0 in
  let g2 :=
    run [(clock 3, RevealBonusAnswer); (clock 4, JudgeBonus true);
         (clock 5, RevealBonusAnswer); (clock 6, JudgeBonus true);
         (clock 7, RevealBonusAnswer); (clock 8, JudgeBonus true)] g1 in
  let g3 := dispatch (clock 9) EndSession g2 in
  (gameState g1 = Bonus ∧ score g1 = points q ∧
   correctStarters g1 = 1 ∧ totalStarters g1 = 1 ∧
   currentBonusSet g1 = SAMPLE_BONUSES !! randomIndex ∧
   correctBonuses g1 = 0 ∧ totalBonuses g1 = 0) ∧
  (2 ≤ length SAMPLE_BONUSES →
   gameState g2 = Session ∧ score g2 = (points q + 15)%Z ∧
   correctBonuses g2 = 3 ∧ totalBonuses g2 = 3 ∧
   gameState g3 = Ready ∧ score g3 = (points q + 15)%Z ∧
   correctStarters g3 = 1 ∧ totalStarters g3 = 1 ∧
   correctBonuses g3 = 3 ∧ totalBonuses g3 = 3).
Proof.
  intros HS Hsh H3 Hri Hm Hg.
  rewrite HS in Hsh. apply Permutation_singleton_r in Hsh as ->.
  destruct (SAMPLE_BONUSES !! randomIndex) as [b|] eqn:Hb;
    [|apply lookup_ge_None in Hb; lia].
  pose proof (Forall_lookup_1 _ _ _ _ H3 Hb) as Hb3. cbn beta in Hb3.
  change [(clock 0, Start [q]); (clock 1, Buzz);
          (clock 2, JudgeStarter true randomIndex)]
    with ([(clock 0, Start [q]); (clock 1, Buzz)] ++
          [(clock 2, JudgeStarter true randomIndex)]).
  rewrite run_app, run_one.
  destruct (single_starter_opening (clock 0) (clock 1) q g0 Hm Hg)
    as (Hma & Hga & Hsta & Hcqa & Hboa & Hsca & Hcsa & Htsa & Hiba & Hcba
        & Htba & _).
  set (ga := run [(clock 0, Start [q]); (clock 1, Buzz)] g0) in *.
  destruct (dispatch_JudgeStarter_bonus (clock 2) randomIndex ga q b)
    as (Hg1 & Hm1 & Hsc1 & Hcs1 & Hcbs1 & Hk1 & _ & Hbo1 & _ & Hts1 & _
        & Hcb1 & Htb1 & _); try done.
  { by rewrite Hsta, Hcqa. }
  { by rewrite Hboa. }
  { apply lookup_lt_is_Some. lia. }
  set (g1 := dispatch (clock 2) (JudgeStarter true randomIndex) ga) in *.
  cbn zeta. split.
  { split_and!; try congruence; lia. }
  intros H2.
  assert (Hne : bonuses g1 ≠ []).
  { rewrite Hbo1, Hboa. intros Hd. apply (f_equal length) in Hd.
    rewrite length_delete in Hd by done. cbn in Hd. lia. }
  change [(clock 3, RevealBonusAnswer); (clock 4, JudgeBonus true);
          (clock 5, RevealBonusAnswer); (clock 6, JudgeBonus true);
          (clock 7, RevealBonusAnswer); (clock 8, JudgeBonus true)]
    with ([(clock 3, RevealBonusAnswer); (clock 4, JudgeBonus true)] ++
          [(clock 5, RevealBonusAnswer); (clock 6, JudgeBonus true)] ++
          [(clock 7, RevealBonusAnswer); (clock 8, JudgeBonus true)]).
  rewrite !run_app.
  destruct (bonus_cycle (clock 3) (clock 4) true g1 b)
    as (Hmx & Hscx & Hcbx & Htbx & Hifx & Hcbsx & Hbox & _ & Hcsx & Htsx & _);
    try done; try lia.
  set (gx := run [(clock 3, RevealBonusAnswer); (clock 4, JudgeBonus true)] g1)
    in *.
  rewrite Hk1 in Hifx. change (0 <? 2) with true in Hifx.
  destruct Hifx as (Hgx & Hkx & _).
  destruct (bonus_cycle (clock 5) (clock 6) true gx b)
    as (Hmy & Hscy & Hcby & Htby & Hify & Hcbsy & Hboy & _ & Hcsy & Htsy & _);
    try done; try lia; try congruence.
  set (gy := run [(clock 5, RevealBonusAnswer); (clock 6, JudgeBonus true)] gx)
    in *.
  rewrite Hkx in Hify. change (0 + 1 <? 2) with true in Hify.
  destruct Hify as (Hgy & Hky & _).
  destruct (bonus_cycle (clock 7) (clock 8) true gy b)
    as (Hmz & Hscz & Hcbz & Htbz & Hifz & _ & _ & _ & Hcsz & Htsz & _);
    try done; try lia; try congruence.
  set (gz := run [(clock 7, RevealBonusAnswer); (clock 8, JudgeBonus true)] gy)
    in *.
  rewrite Hky in Hifz. change (0 + 1 + 1 <? 2) with false in Hifz.
  destruct Hifz as (Hgz & _).
  destruct (dispatch_EndSession (clock 9) gz Hmz Hgz)
    as (Hge & _ & Hsce & Hcse & Htse & _ & Hcbe & Htbe).
  split_and!; try done; lia.
Qed.

(** C2 (the code on this round). A round dealt a single starter and no
    bonus set: after the buzz and a correct judgment the game is told to
    present the next starter although none is left; the render throws and
    the component unmounts, in 'playing', with no statistics entry. *)
Theorem last_starter_without_bonus now0 now1 now2 randomIndex q g0 :
  SAMPLE_BONUSES = [] → mounted g0 = true → gameState g0 = Ready →
  let g :=
    run [(now0, Start [q]); (now1, Buzz);
         (now2, JudgeStarter true randomIndex)] g0 in
  gameState g = Playing ∧ mounted g = false ∧ starters g = [] ∧
  correctStarters g = 1 ∧ totalStarters g = 1 ∧ score g = points q ∧
  statistics g = statistics g0.
Proof.
  intros HB Hm Hg.
  change [(now0, Start [q]); (now1, Buzz);
          (now2, JudgeStarter true randomIndex)]
    with ([(now0, Start [q]); (now1, Buzz)] ++
          [(now2, JudgeStarter true randomIndex)]).
  rewrite run_app, run_one.
  destruct (single_starter_opening now0 now1 q g0 Hm Hg)
    as (Hma & Hga & Hsta & Hcqa & Hboa & Hsca & Hcsa & Htsa & _ & _ & _ & _
        & Hstat).
  set (ga := run [(now0, Start [q]); (now1, Buzz)] g0) in *.
  destruct (dispatch_JudgeStarter_no_bonus now2 randomIndex ga q)
    as (Hg1 & Hm1 & Hsc1 & Hcs1 & Hst1 & _ & Hts1 & _ & _ & _ & _ & Hstat1 & _);
    try done.
  { by rewrite Hsta, Hcqa. }
  { by rewrite Hboa. }
  rewrite Hsta, Hcqa in Hm1, Hst1.
  change (delete 0 [q]) with (@nil Question) in Hm1, Hst1.
  cbn zeta. split_and!; try congruence; try lia.
  rewrite Hm1. apply bool_decide_eq_false_2. by intros [? ?].
Qed.

End Properties.

(** ** Further properties of the component *)

Ltac unfold_play_inv := unfold play_inv.

Ltac simpl_handler := cbn [handler].

Section Further.

Variable SAMPLE_STARTERS : list Question.
Variable SAMPLE_BONUSES : list BonusSet.

Local Abbreviation dispatch := (dispatch SAMPLE_BONUSES).
Local Abbreviation handler := (handler SAMPLE_BONUSES).
Local Abbreviation run := (run SAMPLE_BONUSES).
Local Abbreviation init := (init SAMPLE_STARTERS SAMPLE_BONUSES).
Local Abbreviation env_ok := (env_ok SAMPLE_STARTERS).
Local Abbreviation reachable := (reachable SAMPLE_STARTERS SAMPLE_BONUSES).
Local Abbreviation round_inv := (round_inv SAMPLE_STARTERS).
Local Abbreviation play_inv := (play_inv SAMPLE_BONUSES).
Local Abbreviation reachable_round_inv :=
  (reachable_round_inv SAMPLE_STARTERS SAMPLE_BONUSES).
Local Abbreviation dispatch_enabled := (dispatch_enabled SAMPLE_BONUSES).

Lemma play_inv_init savedStats : play_inv (init savedStats).
Proof.
  unfold_play_inv; cbn. split_and!; try done; lia.
Qed.

Lemma play_inv_handler now e r :
  play_inv r → (timerInterval r = true → gameState r = Playing) →
  mounted r = true → enabled r e = true →
  play_inv (handler now e r r).
Proof.
  intros (HJ & HB & HK & HC & HP & HS) HT Hm Hen.
  destruct (timerInterval r) eqn:Hti;
    [specialize (HT eq_refl); rewrite HT in *|clear HT].
  all: destruct e; unfold_handlers; unfold_play_inv.
  all: split_cases; try done.
  all: repeat match goal with
       | H : (_ <=? _) = true |- _ => apply Nat.leb_le in H
       end.
  all: rewrite ?filter_index_ne_delete, ?length_app; cbn [length].
  all: split_and!; try done; try lia; try congruence.
  all: try (etrans; [apply submseteq_delete|done]).
  all: try (intros b' Hb'; eapply elem_of_submseteq; [|done];
            by eapply list_elem_of_lookup_2).
Qed.

Lemma play_inv_commit now r p : play_inv p → play_inv (commit now r p).
Proof.
  intros (HJ & HB & HK & HC & HP & HS). unfold_play_inv.
  destruct (commit_statistics now r p) as [-> ->].
  commit_fields. split_and!; try done.
  match goal with
  | |- context [if ?c then _ ++ _ else _] => destruct c
  end; [reflexivity|exact HS].
Qed.

Lemma play_inv_dispatch now e g :
  round_inv g → play_inv g → play_inv (dispatch now e g).
Proof.
  intros (_ & HT & _) Hinv. unfold_dispatch.
  destruct (mounted g) eqn:Hm; cbn [negb]; [|done].
  destruct (enabled g e) eqn:Hen; cbn [negb]; [|done].
  apply play_inv_commit, play_inv_handler; try done.
  intros Hti. by apply HT.
Qed.

Lemma reachable_play_inv g : reachable g → play_inv g.
Proof.
  induction 1 as [savedStats|now e g Hg IH He].
  - apply play_inv_init.
  - apply play_inv_dispatch; [by apply reachable_round_inv|done].
Qed.

(** The interval set by [startTimer] is live exactly while a starter is
    presented by a mounted component. *)
Theorem timer_live_iff_playing g :
  reachable g →
  timerInterval g = true ↔ gameState g = Playing ∧ mounted g = true.
Proof.
  intros Hg. destruct (reachable_round_inv g Hg) as (_ & HT & HP & _).
  split; [done|]. intros [Hp Hm]. by destruct (HP Hp Hm).
Qed.

(** The starter pool holds questions of the bank, each at most as often
    as the bank does, and every presented starter has left it, except
    the one awaiting its judgment. *)
Theorem starter_pool_bookkeeping g :
  reachable g →
  starters g ⊆+ SAMPLE_STARTERS ∧
  totalStarters g + length (starters g) =
    length SAMPLE_STARTERS +
    (if bool_decide (gameState g = Answer) then 1 else 0).
Proof.
  intros Hg. destruct (reachable_round_inv g Hg) as (_ & _ & _ & HS & HG).
  split; [done|].
  destruct (gameState g); case_bool_decide; try done; lia.
Qed.

(** Every presented starter is judged once: outside 'answer' the correct
    and the incorrect judgments add up to the starters presented, and in
    'answer' exactly one judgment is pending. *)
Theorem every_starter_judged_once g :
  reachable g →
  correctStarters g + incorrectBuzzes g +
    (if bool_decide (gameState g = Answer) then 1 else 0) =
  totalStarters g.
Proof.
  intros Hg. destruct (reachable_play_inv g Hg) as (HJ & _).
  case_bool_decide; lia.
Qed.

(** A buzz time is recorded for at most every presented starter (none
    for a starter that timed out). *)
Theorem buzzTimes_le_totalStarters g :
  reachable g → length (buzzTimes g) ≤ totalStarters g.
Proof. intros Hg. by destruct (reachable_play_inv g Hg) as (_ & HB & _). Qed.

(** The history in memory is the stored history (the empty one when
    nothing is stored). *)
Theorem history_is_stored g :
  reachable g → statistics g = default [] (localStorage g).
Proof.
  intros Hg. by destruct (reachable_play_inv g Hg) as (_ & _ & _ & _ & _ & HS).
Qed.

(** The bonus cells stay in range: the sub-question index is 0, 1 or 2,
    the active set is a set of the bank, and the pool holds sets of the
    bank, each at most as often as the bank does. *)
Theorem bonus_cells_in_range g :
  reachable g →
  currentBonus g ≤ 2 ∧
  (∀ b, currentBonusSet g = Some b → b ∈ SAMPLE_BONUSES) ∧
  bonuses g ⊆+ SAMPLE_BONUSES.
Proof.
  intros Hg. by destruct (reachable_play_inv g Hg) as (_ & _ & HK & HC & HP & _).
Qed.

Lemma handler_statistics now e g :
  statistics (handler now e g g) = statistics g.
Proof. destruct e; unfold_handlers; split_cases; done. Qed.

Lemma handler_mounted now e g : mounted (handler now e g g) = mounted g.
Proof. destruct e; unfold_handlers; split_cases; done. Qed.

Lemma handler_currentQuestion now e g :
  currentQuestion g = 0 → currentQuestion (handler now e g g) = 0.
Proof. intros Hq. destruct e; unfold_handlers; split_cases; done. Qed.

(** No event removes or rewrites an entry of the history: it keeps its
    entries, and gains at most one. *)
Theorem history_append_only now e g :
  statistics g `prefix_of` statistics (dispatch now e g) ∧
  length (statistics (dispatch now e g)) ≤ length (statistics g) + 1.
Proof.
  unfold_dispatch.
  destruct (mounted g); cbn [negb]; [|split; [done|lia]].
  destruct (enabled g e); cbn [negb]; [|split; [done|lia]].
  destruct (commit_statistics now g (handler now e g g)) as [-> _].
  rewrite handler_statistics.
  case_match; [|split; [done|lia]].
  split; [by apply prefix_app_r|]. rewrite length_app. cbn. lia.
Qed.

Lemma commit_render_throws now r p :
  render_throws (commit now r p) = render_throws p.
Proof. unfold render_throws. by commit_fields. Qed.

Lemma reachable_renders g :
  reachable g → mounted g = true → render_throws g = false.
Proof.
  induction 1 as [savedStats|now e g Hg IH He]; [done|].
  unfold_dispatch.
  destruct (mounted g) eqn:Hm; cbn [negb]; [|congruence].
  destruct (enabled g e) eqn:Hen; cbn [negb]; [|by auto].
  rewrite commit_mounted, commit_render_throws.
  intros [_ Hr%negb_true_iff]%andb_prop. done.
Qed.

Lemma commit_unchanged now r p :
  render_throws p = false → gameState p = gameState r → commit now r p = p.
Proof.
  intros Hr Hg. unfold commit. by rewrite Hr, bool_decide_eq_true_2.
Qed.

(** A render throws only when a starter is to be presented from an empty
    pool, provided every bonus set of the bank has its three questions:
    an unmounted component is in 'playing' with no starter left. *)
Theorem unmount_only_on_empty_pool g :
  Forall (λ b, length (questions b) = 3) SAMPLE_BONUSES →
  reachable g → mounted g = false →
  gameState g = Playing ∧ starters g = [].
Proof.
  intros H3 Hg.
  assert (Hinv : currentQuestion g = 0 ∧
                 (mounted g = false → gameState g = Playing ∧ starters g = [])).
  { induction Hg as [savedStats|now e g Hg IH He]; [done|].
    destruct IH as [Hq IH].
    pose proof (reachable_round_inv g Hg) as Hround.
    pose proof (reachable_play_inv g Hg) as Hplay.
    unfold_dispatch.
    destruct (mounted g) eqn:Hm; cbn [negb]; [|by rewrite Hm].
    destruct (enabled g e) eqn:Hen; cbn [negb]; [|by rewrite Hm].
    pose proof (handler_currentQuestion now e g Hq) as Hq'.
    pose proof (pending_inv_handler SAMPLE_STARTERS SAMPLE_BONUSES now e g
                  Hround Hm Hen (env_ok_start_ok SAMPLE_STARTERS g e He))
      as (_ & _ & _ & _ & _ & HG).
    assert (HT : timerInterval g = true → gameState g = Playing).
    { intros Hti. by apply Hround. }
    pose proof (play_inv_handler now e g Hplay HT Hm Hen)
      as (_ & _ & HK & HC & _).
    rewrite commit_mounted, handler_mounted, Hm.
    commit_fields. split; [done|].
    cbn [andb]. intros Hr%negb_false_iff. revert Hr.
    unfold render_throws. rewrite Hq'.
    destruct (gameState (handler now e g g)) eqn:Hgs; try done.
    - intros Hn%bool_decide_eq_true. split; [done|].
      by destruct (starters (handler now e g g)).
    - intros Hn%bool_decide_eq_true. destruct HG as (_ & _ & [q Hq0]).
      rewrite Hq' in Hq0. congruence.
    - destruct (currentBonusSet (handler now e g g)) as [b|] eqn:Hb; [|done].
      intros Hn%bool_decide_eq_true. apply lookup_ge_None in Hn.
      specialize (HC b eq_refl).
      rewrite Forall_forall in H3. specialize (H3 b HC). lia. }
  apply Hinv.
Qed.

(** In a reachable 'answer' state the judgment is always accepted: the
    starter leaves the pool and the game leaves 'answer'. *)
Theorem judgment_always_accepted now correct randomIndex g :
  reachable g → mounted g = true → gameState g = Answer →
  let g' := dispatch now (JudgeStarter correct randomIndex) g in
  gameState g' ≠ Answer ∧
  starters g' = delete (currentQuestion g) (starters g) ∧
  length (starters g') + 1 = length (starters g) ∧
  totalStarters g' = totalStarters g.
Proof.
  intros Hr Hm Hg. cbn zeta.
  destruct (reachable_round_inv g Hr) as (_ & _ & _ & _ & HG).
  rewrite Hg in HG. destruct HG as (_ & _ & [q Hq]).
  rewrite dispatch_enabled;
    [|done|by cbn [enabled]; apply bool_decide_eq_true_2].
  commit_fields. unfold_handlers. rewrite Hq.
  pose proof (lookup_lt_Some _ _ _ Hq) as Hlt.
  pose proof (length_delete (starters g) (currentQuestion g)
                (mk_is_Some _ _ Hq)) as Hlen.
  destruct correct; split_cases; rewrite ?filter_index_ne_delete;
    split_and!; try done; lia.
Qed.

(** A tick before the time limit only refreshes the elapsed time. *)
Theorem tick_before_limit now g :
  reachable g → mounted g = true → gameState g = Playing →
  (since_start now g < STARTER_TIME_LIMIT)%Z →
  dispatch now Tick g = setElapsedTime (to (since_start now g)) g.
Proof.
  intros Hr Hm Hg Hlim.
  pose proof (reachable_renders g Hr Hm) as Hok.
  destruct (reachable_round_inv g Hr) as (_ & _ & HP & _).
  destruct (HP Hg Hm) as [Hti _].
  rewrite dispatch_enabled; [|done|done].
  apply Z.leb_gt in Hlim.
  assert (Hp : handler now Tick g g =
               setElapsedTime (to (since_start now g)) g).
  { simpl_handler. unfold timerCallback. by rewrite Hlim. }
  rewrite Hp. apply commit_unchanged; [exact Hok|reflexivity].
Qed.

(** Toggling the sound twice gives the state back. *)
Theorem toggleSound_twice now now' g :
  reachable g →
  dispatch now' ToggleSound (dispatch now ToggleSound g) = g.
Proof.
  intros Hr.
  destruct (mounted g) eqn:Hm;
    [|by unfold_dispatch; rewrite Hm; cbn; rewrite Hm].
  pose proof (reachable_renders g Hr Hm) as Hok.
  assert (H1 : dispatch now ToggleSound g =
               setSoundEnabled (to (negb (soundEnabled g))) g).
  { rewrite dispatch_enabled; [|done|done].
    apply commit_unchanged; [exact Hok|reflexivity]. }
  rewrite H1.
  rewrite dispatch_enabled; [|done|done].
  rewrite commit_unchanged; [|exact Hok|reflexivity].
  clear. destruct g as [? ? ? ? ? ? ? se]. cbn. by destruct se.
Qed.

Lemma commit_buzzerPlays now r p :
  buzzerPlays (commit now r p) = buzzerPlays p.
Proof.
  unfold commit, unmount, statsEffect, clearInterval, and_then, skip, to.
  by repeat case_match.
Qed.

Lemma commit_startTime now r p : startTime (commit now r p) = startTime p.
Proof.
  unfold commit, unmount, statsEffect, clearInterval, and_then, skip, to.
  by repeat case_match.
Qed.

Ltac decide_tests :=
  repeat first
    [ progress cbn
    | rewrite bool_decide_eq_true_2 by done
    | rewrite bool_decide_eq_false_2 by done
    | rewrite andb_false_r
    | rewrite andb_true_r ].

Ltac enter_handler now e g :=
  rewrite (dispatch_enabled now e g);
  [ let Hs := fresh in let Hl := fresh in
    destruct (commit_statistics now g (handler now e g g)) as [Hs Hl];
    rewrite ?Hs, ?Hl; clear Hs Hl;
    rewrite ?commit_mounted, ?commit_timerInterval, ?commit_buzzerPlays,
      ?commit_startTime; commit_fields;
    unfold render_throws; unfold_handlers
  | done
  | cbn [enabled]; decide_tests; try done ].

(** [Start Game] forgets the previous round and keeps the history, the
    sound setting and the stored entry; with nothing to present the
    render throws and the component unmounts. *)
Theorem start_resets_round now sh g :
  mounted g = true → gameState g = Ready →
  let g1 := dispatch now (Start sh) g in
  gameState g1 = Playing ∧ starters g1 = sh ∧ currentQuestion g1 = 0 ∧
  bonuses g1 = SAMPLE_BONUSES ∧ score g1 = 0%Z ∧ buzzTimes g1 = [] ∧
  incorrectBuzzes g1 = 0 ∧ correctStarters g1 = 0 ∧ totalStarters g1 = 0 ∧
  correctBonuses g1 = 0 ∧ totalBonuses g1 = 0 ∧
  statistics g1 = statistics g ∧ localStorage g1 = localStorage g ∧
  mounted g1 = bool_decide (sh ≠ []) ∧
  timerInterval g1 = bool_decide (sh ≠ []).
Proof.
  intros Hm Hg. cbn zeta.
  enter_handler now (Start sh) g.
  cbn. rewrite Hm, Hg. decide_tests.
  destruct sh as [|q sh]; cbn; by decide_tests.
Qed.

(** [BUZZ] in 'playing' stops the interval, plays the buzzer if the sound
    is on, records the time since the start of the presentation, shows
    the answer and counts the starter; the pools, the score and the
    other counters are as they were. *)
Theorem buzz_records_latency now g :
  mounted g = true → gameState g = Playing →
  is_Some (starters g !! currentQuestion g) →
  let g' := dispatch now Buzz g in
  gameState g' = Answer ∧ mounted g' = true ∧ timerInterval g' = false ∧
  buzzTimes g' = buzzTimes g ++ [since_start now g] ∧
  buzzerPlays g' = buzzerPlays g + (if soundEnabled g then 1 else 0) ∧
  totalStarters g' = totalStarters g + 1 ∧
  starters g' = starters g ∧ bonuses g' = bonuses g ∧ score g' = score g ∧
  correctStarters g' = correctStarters g ∧
  incorrectBuzzes g' = incorrectBuzzes g ∧
  correctBonuses g' = correctBonuses g ∧ totalBonuses g' = totalBonuses g.
Proof.
  intros Hm Hg [q Hq]. cbn zeta.
  enter_handler now Buzz g.
  rewrite Hg. destruct (decide (Playing ≠ Playing)) as [|_]; [done|].
  destruct (soundEnabled g); cbn; rewrite Hm, Hq; decide_tests;
    split_and!; try done; lia.
Qed.

(** A correct starter with a set left in the pool: the set at the random
    index is drawn and leaves the pool, the points are scored, and the
    bonus round starts at its first sub-question, answer hidden. *)
Theorem correct_starter_draws_bonus now randomIndex g q b :
  mounted g = true → gameState g = Answer →
  starters g !! currentQuestion g = Some q →
  bonuses g !! randomIndex = Some b → is_Some (questions b !! 0) →
  let g' := dispatch now (JudgeStarter true randomIndex) g in
  gameState g' = Bonus ∧ mounted g' = true ∧
  score g' = (score g + points q)%Z ∧
  correctStarters g' = correctStarters g + 1 ∧
  currentBonusSet g' = Some b ∧ currentBonus g' = 0 ∧
  showBonusAnswer g' = false ∧
  bonuses g' = delete randomIndex (bonuses g) ∧
  length (bonuses g') + 1 = length (bonuses g) ∧
  starters g' = delete (currentQuestion g) (starters g) ∧
  incorrectBuzzes g' = incorrectBuzzes g ∧
  totalBonuses g' = totalBonuses g.
Proof.
  intros Hm Hg Hq Hb Hb0.
  destruct (dispatch_JudgeStarter_bonus SAMPLE_BONUSES now randomIndex g q b
              Hm Hg Hq Hb Hb0)
    as (? & ? & ? & ? & ? & ? & ? & Hbo & ? & ? & ? & ? & ? & ? & ?).
  cbn zeta. split_and!; try done. rewrite Hbo.
  rewrite length_delete by done. apply lookup_lt_Some in Hb. lia.
Qed.

(** An incorrect starter: one more incorrect buzz, the starter leaves
    the pool, and the round summary is shown; no points, no bonus. *)
Theorem incorrect_starter_to_summary now randomIndex g q :
  mounted g = true → gameState g = Answer →
  starters g !! currentQuestion g = Some q →
  let g' := dispatch now (JudgeStarter false randomIndex) g in
  gameState g' = Session ∧ mounted g' = true ∧
  incorrectBuzzes g' = incorrectBuzzes g + 1 ∧
  starters g' = delete (currentQuestion g) (starters g) ∧
  score g' = score g ∧ correctStarters g' = correctStarters g ∧
  bonuses g' = bonuses g ∧ currentBonusSet g' = currentBonusSet g ∧
  statistics g' = statistics g.
Proof.
  intros Hm Hg Hq. cbn zeta.
  enter_handler now (JudgeStarter false randomIndex) g.
  rewrite Hq. cbn. rewrite Hm, Hg, !filter_index_ne_delete. by decide_tests.
Qed.

(** A correct starter with an empty bonus pool and another starter in
    the pool: the next starter is presented at once, the summary being
    skipped, and the countdown starts anew. *)
Theorem correct_starter_without_bonus_presents_next now randomIndex g q :
  mounted g = true → gameState g = Answer →
  starters g !! currentQuestion g = Some q → bonuses g = [] →
  is_Some (delete (currentQuestion g) (starters g) !! 0) →
  let g' := dispatch now (JudgeStarter true randomIndex) g in
  gameState g' = Playing ∧ mounted g' = true ∧ timerInterval g' = true ∧
  startTime g' = Some now ∧ currentQuestion g' = 0 ∧
  starters g' = delete (currentQuestion g) (starters g) ∧
  score g' = (score g + points q)%Z ∧
  correctStarters g' = correctStarters g + 1.
Proof.
  intros Hm Hg Hq Hb [q' Hq']. cbn zeta.
  enter_handler now (JudgeStarter true randomIndex) g.
  rewrite Hq, Hb.
  assert ((0 <? length (starters g)) = true) as ->
    by (apply Nat.ltb_lt; apply lookup_lt_Some in Hq; lia).
  cbn. rewrite Hm, !filter_index_ne_delete, Hq'. by decide_tests.
Qed.

(** One sub-question of a bonus set, with a set left in the pool: reveal
    and judge.  A correct answer scores 5; after the third sub-question
    the round summary is shown. *)
Theorem bonus_sub_question_cycle now now' correct g b :
  mounted g = true → gameState g = Bonus → currentBonusSet g = Some b →
  length (questions b) = 3 → currentBonus g ≤ 2 → bonuses g ≠ [] →
  let g' := run [(now, RevealBonusAnswer); (now', JudgeBonus correct)] g in
  score g' = (if correct then score g + 5 else score g)%Z ∧
  correctBonuses g' =
    (if correct then correctBonuses g + 1 else correctBonuses g) ∧
  totalBonuses g' = totalBonuses g + 1 ∧
  (if currentBonus g <? 2
   then gameState g' = Bonus ∧ currentBonus g' = currentBonus g + 1 ∧
        showBonusAnswer g' = false
   else gameState g' = Session) ∧
  bonuses g' = bonuses g ∧ starters g' = starters g ∧
  totalStarters g' = totalStarters g.
Proof.
  intros Hm Hg Hb H3 Hk Hne.
  destruct (bonus_cycle SAMPLE_BONUSES now now' correct g b Hm Hg Hb H3 Hk Hne)
    as (_ & ? & ? & ? & Hif & _ & ? & ? & _ & ? & _).
  cbn zeta. split_and!; try done.
  destruct (currentBonus g <? 2); [done|]. by destruct Hif.
Qed.

(** [Continue with Next Starter] in the round summary: the next starter
    is presented and the countdown starts anew, or, with no starter
    left, the game returns to 'ready'; the counters are kept. *)
Theorem continue_round now g :
  mounted g = true → gameState g = Session →
  let g' := dispatch now ContinueRound g in
  (if bool_decide (starters g = [])
   then gameState g' = Ready ∧ timerInterval g' = timerInterval g
   else gameState g' = Playing ∧ currentQuestion g' = 0 ∧
        timerInterval g' = true ∧ startTime g' = Some now) ∧
  mounted g' = true ∧ starters g' = starters g ∧ bonuses g' = bonuses g ∧
  score g' = score g ∧ correctStarters g' = correctStarters g ∧
  totalStarters g' = totalStarters g ∧
  incorrectBuzzes g' = incorrectBuzzes g ∧
  correctBonuses g' = correctBonuses g ∧ totalBonuses g' = totalBonuses g.
Proof.
  intros Hm Hg. cbn zeta.
  enter_handler now ContinueRound g.
  destruct (starters g) as [|q st] eqn:Hst; cbn; rewrite Hm, ?Hst;
    by decide_tests.
Qed.

(** With every starter worth the same [P] points, the score is [P] for
    each correct starter plus 5 for each correct bonus answer. *)
Theorem score_formula (P : Z) g :
  Forall (λ q, points q = P) SAMPLE_STARTERS → reachable g →
  score g =
    (P * Z.of_nat (correctStarters g) + 5 * Z.of_nat (correctBonuses g))%Z.
Proof.
  intros HP. induction 1 as [savedStats|now e g Hg IH He]; [cbn; lia|].
  destruct (reachable_round_inv g Hg) as (_ & _ & _ & HS & _).
  assert (Hpts : ∀ q i, starters g !! i = Some q → points q = P).
  { intros q i Hq. rewrite Forall_forall in HP. apply HP.
    eapply elem_of_submseteq; [|done]. by eapply list_elem_of_lookup_2. }
  unfold_dispatch.
  destruct (mounted g) eqn:Hm; cbn [negb]; [|done].
  destruct (enabled g e) eqn:Hen; cbn [negb]; [|done].
  commit_fields.
  destruct e; unfold_handlers; split_cases; try done; try lia.
  all: match goal with
       | H : starters _ !! _ = Some _ |- _ => apply Hpts in H; lia
       end.
Qed.

(** The entry appended on the return to 'ready' is consistent, so a
    history of consistent entries stays one. *)
Theorem appended_entries_consistent now e g :
  reachable g → env_ok g e →
  Forall stat_consistent (statistics g) →
  Forall stat_consistent (statistics (dispatch now e g)).
Proof.
  intros Hg He Hall.
  pose proof (reachable_round_inv g Hg) as Hround.
  unfold_dispatch.
  destruct (mounted g) eqn:Hm; cbn [negb]; [|done].
  destruct (enabled g e) eqn:Hen; cbn [negb]; [|done].
  pose proof (pending_inv_handler SAMPLE_STARTERS SAMPLE_BONUSES now e g
                Hround Hm Hen (env_ok_start_ok SAMPLE_STARTERS g e He))
    as (HB & _ & _ & _ & _ & HG).
  destruct (commit_statistics now g (handler now e g g)) as [-> _].
  rewrite handler_statistics.
  match goal with
  | |- context [if ?c then _ ++ _ else _] => destruct c
  end; [|done].
  apply Forall_app. split; [done|]. apply Forall_singleton.
  split; cbn; [|done].
  destruct (gameState (handler now e g g)); lia.
Qed.

End Further.

Lemma sum_bounds (l : list Z) (lo hi : Z) :
  Forall (λ x, (lo ≤ x ≤ hi)%Z) l →
  (lo * Z.of_nat (length l) ≤ foldr Z.add 0 l ≤ hi * Z.of_nat (length l))%Z.
Proof.
  induction 1 as [|x l Hx _ IH]; cbn [foldr length]; [lia|].
  rewrite Nat2Z.inj_succ. lia.
Qed.

(** The average buzz time lies between the least and the greatest buzz
    time recorded. *)
Theorem getAverageBuzzTime_bounds (l : list Z) (lo hi : Z) :
  l ≠ [] → Forall (λ x, (lo ≤ x ≤ hi)%Z) l →
  (inject_Z lo <= getAverageBuzzTime l)%Q ∧
  (getAverageBuzzTime l <= inject_Z hi)%Q.
Proof.
  intros Hne Hall. pose proof (sum_bounds l lo hi Hall) as [Hlo Hhi].
  unfold getAverageBuzzTime. destruct l as [|x l]; [done|].
  cbn [length Nat.eqb]. rewrite reduce_sum_foldr.
  assert (Hpos : (0 < inject_Z (Z.of_nat (length (x :: l))))%Q).
  { change 0%Q with (inject_Z 0). rewrite <- Zlt_Qlt. cbn [length]. lia. }
  split.
  - apply Qle_shift_div_l; [done|].
    rewrite <- inject_Z_mult, <- Zle_Qle. done.
  - apply Qle_shift_div_r; [done|].
    rewrite <- inject_Z_mult, <- Zle_Qle. done.
Qed.

(** The chart shows the whole history on request and otherwise its last
    ten entries, in order. *)
Theorem displayedStats_window (showAllHistory : bool)
    (validStats : list GameStatistics) :
  displayedStats showAllHistory validStats `suffix_of` validStats ∧
  length (displayedStats showAllHistory validStats) =
    (if showAllHistory then length validStats
     else length validStats `min` 10) ∧
  length (chartData showAllHistory validStats) =
    length (displayedStats showAllHistory validStats).
Proof.
  unfold chartData. rewrite length_fmap.
  unfold displayedStats, slice_last. destruct showAllHistory.
  - split_and!; done.
  - split_and!; [apply suffix_drop| |done].
    rewrite length_drop. lia.
Qed.

(** A percentage of the chart is 0 when nothing was counted, and lies
    between 0 and 100 for a consistent entry. *)
Theorem percentCorrect_range (correct total : nat) :
  correct ≤ total →
  (0 <= percentCorrect correct total)%Q ∧
  (percentCorrect correct total <= 100)%Q ∧
  (total = 0 → percentCorrect correct total = 0%Q).
Proof.
  intros Hle. unfold percentCorrect.
  destruct (Nat.eqb_spec total 0) as [->|Hne]; [done|].
  assert (Hpos : (0 < inject_Z (Z.of_nat total))%Q).
  { change 0%Q with (inject_Z 0). rewrite <- Zlt_Qlt. lia. }
  split_and!; [| |done].
  - apply Qmult_le_0_compat; [|done].
    apply Qle_shift_div_l; [done|]. rewrite Qmult_0_l.
    change 0%Q with (inject_Z 0). rewrite <- Zle_Qle. lia.
  - apply Qle_trans with (1 * 100)%Q;
      [|rewrite Qmult_1_l; apply Qle_refl].
    apply Qmult_le_compat_r; [|done].
    apply Qle_shift_div_r; [done|]. rewrite Qmult_1_l.
    rewrite <- Zle_Qle. lia.
Qed.

(** ** Worked examples *)

(** C1. One starter and exactly one bonus set: the draw empties the
    pool, and [handleBonusAnswer] tests the emptied pool before anything
    else, so no judgment of the drawn set is accepted.  After the buzz,
    the correct starter and three times reveal and correct, the game is
    still in 'bonus' with the starter's 10 points and no bonus counted,
    not in 'ready' with 25 points and 3 of 3 bonuses. *)
Lemma scenario_one_bonus_set_stuck :
  let g := run [bonus_rivers] scenario_one_bonus_set
             (init [starter_mars] [bonus_rivers] None) in
  (gameState g = Bonus ∧ score g = 10%Z ∧
   correctBonuses g = 0 ∧ totalBonuses g = 0) ∧
  ¬ (gameState g = Ready ∧ score g = (points starter_mars + 15)%Z ∧
     correctBonuses g = 3 ∧ totalBonuses g = 3).
Proof.
  cbn zeta. split; [by vm_compute|].
  intros (Hg & _). by vm_compute in Hg.
Qed.

Lemma bonus_round_scenario_witness :
  let g0 := init [starter_mars] [bonus_rivers; bonus_elements] None in
  let g1 := run [bonus_rivers; bonus_elements]
              [(0%Z, Start [starter_mars]); (1%Z, Buzz);
               (2%Z, JudgeStarter true 1)] g0 in
  let g2 := run [bonus_rivers; bonus_elements]
              [(3%Z, RevealBonusAnswer); (4%Z, JudgeBonus true);
               (5%Z, RevealBonusAnswer); (6%Z, JudgeBonus true);
               (7%Z, RevealBonusAnswer); (8%Z, JudgeBonus true)] g1 in
  gameState g1 = Bonus ∧ currentBonusSet g1 = Some bonus_elements ∧
  gameState g2 = Session ∧ score g2 = 25%Z.
Proof.
  pose proof (bonus_round_scenario [starter_mars] [bonus_rivers; bonus_elements]
                Z.of_nat starter_mars [starter_mars] 1
                (init [starter_mars] [bonus_rivers; bonus_elements] None))
    as H.
  cbn zeta in H.
  destruct H as [(H1 & _ & _ & _ & H5 & _) H2];
    [reflexivity|reflexivity|repeat constructor|cbn; lia|reflexivity|reflexivity|].
  destruct H2 as (H6 & H7 & _); [cbn; lia|].
  cbn zeta. split_and!; [exact H1|exact H5|exact H6|exact H7].
Defined.

(** C2 on the scenario: 'playing', unmounted, nothing appended. *)
Lemma last_starter_without_bonus_witness :
  let g := run [] scenario_no_bonus_set (init [starter_mars] [] None) in
  gameState g = Playing ∧ mounted g = false ∧ starters g = [] ∧
  correctStarters g = 1 ∧ totalStarters g = 1 ∧
  score g = points starter_mars ∧ statistics g = [].
Proof.
  apply (last_starter_without_bonus [] 0%Z 2500%Z 4000%Z 0 starter_mars
           (init [starter_mars] [] None)); reflexivity.
Defined.

Lemma judgeBonus_before_reveal_rejected_witness :
  dispatch bank_bonuses 5000 (JudgeBonus true) game_bonus = game_bonus.
Proof.
  apply judgeBonus_before_reveal_rejected; reflexivity.
Defined.

Lemma stats_appended_on_entering_ready_witness :
  statistics (dispatch bank_bonuses 9000 EndSession game_session) =
  [{| stat_id := 9000; stat_date := 9000;
      stat_avgBuzzTime := getAverageBuzzTime [2500%Z];
      stat_score := 0; stat_incorrectBuzzes := 1;
      stat_correctStarters := 0; stat_totalStarters := 1;
      stat_correctBonuses := 0; stat_totalBonuses := 0 |}].
Proof.
  destruct (stats_appended_on_entering_ready bank_bonuses 9000 EndSession
              game_session) as [H _]; [by vm_compute|by vm_compute|].
  destruct H as (H & _); [by vm_compute|]. exact H.
Defined.

Lemma timeout_then_incorrect_witness :
  let g1 := dispatch bank_bonuses 60000 Tick game_playing in
  let g2 := dispatch bank_bonuses 61000 (JudgeStarter false 0) g1 in
  gameState g1 = Answer ∧ totalStarters g1 = 1 ∧ buzzTimes g1 = [] ∧
  gameState g2 = Session ∧ incorrectBuzzes g2 = 1.
Proof.
  destruct (timeout_then_incorrect bank_starters bank_bonuses 60000 61000 0
              game_playing) as (H1 & H2 & H3 & H4 & H5 & _).
  - apply reachable_dispatch; [apply reachable_init|]. apply perm_swap.
  - reflexivity.
  - reflexivity.
  - by vm_compute.
  - cbn zeta. split_and!; [exact H1|exact H2|exact H3|exact H4|exact H5].
Defined.

Lemma correct_le_total_witness :
  correctStarters game_answer ≤ totalStarters game_answer ∧
  correctBonuses game_answer ≤ totalBonuses game_answer.
Proof.
  apply (correct_le_total bank_starters bank_bonuses).
  apply reachable_dispatch; [|exact I].
  apply reachable_dispatch; [apply reachable_init|]. apply perm_swap.
Defined.

Lemma totalStarters_counts_presentations_witness :
  let tr := [(2500, Buzz); (4000, JudgeStarter false 0);
             (5000, ContinueRound); (65000, Tick)]%Z in
  totalStarters (run bank_bonuses tr game_playing) =
    presentationCycles bank_bonuses tr game_playing ∧
  totalStarters (run bank_bonuses tr game_playing) ≤ 2.
Proof.
  apply (totalStarters_counts_presentations bank_starters bank_bonuses
           game_ready 0 [starter_hamlet; starter_mars]).
  - apply reachable_init.
  - reflexivity.
  - reflexivity.
  - apply perm_swap.
  - repeat constructor.
Defined.

Lemma bonus_draws_distinct_witness :
  let tr := [(2500, Buzz); (4000, JudgeStarter true 1);
             (5000, RevealBonusAnswer); (6000, JudgeBonus true);
             (7000, RevealBonusAnswer); (8000, JudgeBonus false);
             (9000, RevealBonusAnswer); (10000, JudgeBonus true);
             (11000, ContinueRound); (12000, Buzz);
             (13000, JudgeStarter true 0)]%Z in
  draws bank_bonuses tr game_playing = [bonus_elements; bonus_rivers] ∧
  NoDup (draws bank_bonuses tr game_playing).
Proof.
  destruct (bonus_draws_distinct bank_bonuses game_ready 0
              [starter_hamlet; starter_mars]
              [(2500, Buzz); (4000, JudgeStarter true 1);
               (5000, RevealBonusAnswer); (6000, JudgeBonus true);
               (7000, RevealBonusAnswer); (8000, JudgeBonus false);
               (9000, RevealBonusAnswer); (10000, JudgeBonus true);
               (11000, ContinueRound); (12000, Buzz);
               (13000, JudgeStarter true 0)]%Z) as [_ H].
  - reflexivity.
  - reflexivity.
  - repeat constructor.
  - destruct H as [H _].
    + apply NoDup_cons_2; [|apply NoDup_singleton].
      intros Hin%list_elem_of_singleton. discriminate Hin.
    + cbn zeta. split; [reflexivity|exact H].
Defined.

(** C9 (as stated). Nothing tests the sign of a point value: marking a
    starter worth -5 correct takes the score from 0 to -5. *)
Lemma score_decreases_on_negative_points :
  let g' := dispatch bank_bonuses 4000 (JudgeStarter true 0)
              game_penalty_answer in
  reachable [starter_penalty] bank_bonuses game_penalty_answer ∧
  is_start (JudgeStarter true 0) = false ∧
  score game_penalty_answer = 0%Z ∧ score g' = (-5)%Z ∧
  ¬ (score game_penalty_answer ≤ score g')%Z.
Proof.
  cbn zeta. split_and!.
  - apply reachable_dispatch; [|exact I].
    apply reachable_dispatch; [apply reachable_init|]. cbn. reflexivity.
  - reflexivity.
  - reflexivity.
  - reflexivity.
  - vm_compute. intros H. by apply H.
Qed.

Lemma score_never_decreases_witness :
  (score game_answer ≤
   score (dispatch bank_bonuses 4000 (JudgeStarter true 0) game_answer))%Z.
Proof.
  apply (score_never_decreases bank_starters bank_bonuses).
  - repeat constructor; cbn; lia.
  - apply reachable_dispatch; [|exact I].
    apply reachable_dispatch; [apply reachable_init|]. apply perm_swap.
  - reflexivity.
Defined.

Lemma judgeBonus_noop_when_pool_empty_witness :
  let g := run [bonus_rivers] scenario_no_bonus_set
             (init [starter_mars] [bonus_rivers] None) in
  handleBonusAnswer g true g = g ∧
  same_round_state g
    (run [bonus_rivers]
       [(5000, RevealBonusAnswer); (6000, JudgeBonus true)]%Z g).
Proof.
  destruct (judgeBonus_noop_when_pool_empty [starter_mars] [bonus_rivers]
              (run [bonus_rivers] scenario_no_bonus_set
                 (init [starter_mars] [bonus_rivers] None))) as [H1 H2].
  - reflexivity.
  - cbn zeta. split; [apply H1|]. apply H2; [|reflexivity].
    apply reachable_dispatch.
    + apply reachable_dispatch; [|exact I].
      apply reachable_dispatch; [apply reachable_init|]. cbn. reflexivity.
    + vm_compute. intros _. lia.
Defined.

(** ** Worked examples for the further properties *)

Lemma reachable_game_playing :
  reachable bank_starters bank_bonuses game_playing.
Proof.
  apply reachable_dispatch; [apply reachable_init|]. apply perm_swap.
Qed.

Lemma reachable_game_answer :
  reachable bank_starters bank_bonuses game_answer.
Proof. apply reachable_dispatch; [apply reachable_game_playing|exact I]. Qed.

Lemma reachable_game_session :
  reachable bank_starters bank_bonuses game_session.
Proof.
  apply reachable_dispatch; [apply reachable_game_answer|].
  vm_compute. intros _. lia.
Qed.

Lemma reachable_game_bonus :
  reachable bank_starters bank_bonuses game_bonus.
Proof.
  apply reachable_dispatch; [apply reachable_game_answer|].
  vm_compute. intros _. lia.
Qed.

Lemma timer_live_iff_playing_witness :
  timerInterval game_playing = true ↔
  gameState game_playing = Playing ∧ mounted game_playing = true.
Proof.
  apply (timer_live_iff_playing bank_starters bank_bonuses).
  apply reachable_game_playing.
Defined.

Lemma starter_pool_bookkeeping_witness :
  starters game_session ⊆+ bank_starters ∧
  totalStarters game_session + length (starters game_session) = 2 + 0.
Proof.
  apply (starter_pool_bookkeeping bank_starters bank_bonuses game_session).
  apply reachable_game_session.
Defined.

Lemma every_starter_judged_once_witness :
  correctStarters game_answer + incorrectBuzzes game_answer + 1 =
  totalStarters game_answer.
Proof.
  apply (every_starter_judged_once bank_starters bank_bonuses game_answer).
  apply reachable_game_answer.
Defined.

Lemma buzzTimes_le_totalStarters_witness :
  length (buzzTimes game_answer) ≤ totalStarters game_answer.
Proof.
  apply (buzzTimes_le_totalStarters bank_starters bank_bonuses).
  apply reachable_game_answer.
Defined.

Lemma history_is_stored_witness :
  statistics (dispatch bank_bonuses 9000 EndSession game_session) =
  default [] (localStorage (dispatch bank_bonuses 9000 EndSession game_session)).
Proof.
  apply (history_is_stored bank_starters bank_bonuses).
  apply reachable_dispatch; [apply reachable_game_session|exact I].
Defined.

Lemma bonus_cells_in_range_witness :
  currentBonus game_bonus ≤ 2 ∧
  (∀ b, currentBonusSet game_bonus = Some b → b ∈ bank_bonuses) ∧
  bonuses game_bonus ⊆+ bank_bonuses.
Proof.
  apply (bonus_cells_in_range bank_starters bank_bonuses).
  apply reachable_game_bonus.
Defined.

Lemma unmount_only_on_empty_pool_witness :
  let g := run [] scenario_no_bonus_set (init [starter_mars] [] None) in
  mounted g = false ∧ gameState g = Playing ∧ starters g = [].
Proof.
  cbn zeta. split; [reflexivity|].
  apply (unmount_only_on_empty_pool [starter_mars] []).
  - constructor.
  - apply reachable_dispatch; [|vm_compute; intros H; by destruct H].
    apply reachable_dispatch; [|exact I].
    apply reachable_dispatch; [apply reachable_init|]. cbn. reflexivity.
  - reflexivity.
Defined.

Lemma judgment_always_accepted_witness :
  let g' := dispatch bank_bonuses 4000 (JudgeStarter true 0) game_answer in
  gameState g' ≠ Answer ∧ starters g' = [starter_mars] ∧
  length (starters g') + 1 = 2 ∧ totalStarters g' = 1.
Proof.
  apply (judgment_always_accepted bank_starters bank_bonuses 4000 true 0
           game_answer); [apply reachable_game_answer|reflexivity|reflexivity].
Defined.

Lemma tick_before_limit_witness :
  dispatch bank_bonuses 30000 Tick game_playing =
  setElapsedTime (to 30000%Z) game_playing.
Proof.
  apply (tick_before_limit bank_starters bank_bonuses 30000 game_playing);
    [apply reachable_game_playing|reflexivity|reflexivity|by vm_compute].
Defined.

Lemma toggleSound_twice_witness :
  dispatch bank_bonuses 2 ToggleSound
    (dispatch bank_bonuses 1 ToggleSound game_bonus) = game_bonus.
Proof.
  apply (toggleSound_twice bank_starters bank_bonuses).
  apply reachable_game_bonus.
Defined.

Lemma start_resets_round_witness :
  let g0 := dispatch bank_bonuses 9000 EndSession game_session in
  let g1 := dispatch bank_bonuses 10000 (Start bank_starters) g0 in
  gameState g1 = Playing ∧ starters g1 = bank_starters ∧
  incorrectBuzzes g1 = 0 ∧ totalStarters g1 = 0 ∧ buzzTimes g1 = [] ∧
  length (statistics g1) = 1 ∧ mounted g1 = true.
Proof.
  destruct (start_resets_round bank_bonuses 10000 bank_starters
              (dispatch bank_bonuses 9000 EndSession game_session))
    as (H1 & H2 & _ & _ & _ & H6 & H7 & _ & H9 & _ & _ & H12 & _ & H14 & _);
    [reflexivity|reflexivity|].
  cbn zeta. split_and!; [exact H1|exact H2|exact H7|exact H9|exact H6| |].
  - rewrite H12. reflexivity.
  - rewrite H14. reflexivity.
Defined.

Lemma buzz_records_latency_witness :
  gameState game_answer = Answer ∧ buzzTimes game_answer = [2500%Z] ∧
  buzzerPlays game_answer = 1 ∧ timerInterval game_answer = false.
Proof.
  destruct (buzz_records_latency bank_bonuses 2500 game_playing)
    as (H1 & _ & H3 & H4 & H5 & _);
    [reflexivity|reflexivity|by eexists|].
  split_and!; [exact H1|exact H4|exact H5|exact H3].
Defined.

Lemma correct_starter_draws_bonus_witness :
  gameState game_bonus = Bonus ∧ score game_bonus = 10%Z ∧
  currentBonusSet game_bonus = Some bonus_rivers ∧
  bonuses game_bonus = [bonus_elements] ∧ starters game_bonus = [starter_mars].
Proof.
  destruct (correct_starter_draws_bonus bank_bonuses 4000 0 game_answer
              starter_hamlet bonus_rivers)
    as (H1 & _ & H3 & _ & H5 & _ & _ & H8 & _ & H10 & _);
    [reflexivity|reflexivity|reflexivity|reflexivity|by eexists|].
  split_and!; [exact H1|exact H3|exact H5|exact H8|exact H10].
Defined.

Lemma incorrect_starter_to_summary_witness :
  gameState game_session = Session ∧ incorrectBuzzes game_session = 1 ∧
  starters game_session = [starter_mars] ∧ score game_session = 0%Z.
Proof.
  destruct (incorrect_starter_to_summary bank_bonuses 4000 0 game_answer
              starter_hamlet)
    as (H1 & _ & H3 & H4 & H5 & _);
    [reflexivity|reflexivity|reflexivity|].
  split_and!; [exact H1|exact H3|exact H4|exact H5].
Defined.

Lemma correct_starter_without_bonus_presents_next_witness :
  let g := run [] [(0, Start bank_starters); (2500, Buzz)]%Z
             (init bank_starters [] None) in
  let g' := dispatch [] 4000 (JudgeStarter true 0) g in
  gameState g' = Playing ∧ mounted g' = true ∧
  starters g' = [starter_hamlet] ∧ score g' = 10%Z ∧
  startTime g' = Some 4000%Z.
Proof.
  destruct (correct_starter_without_bonus_presents_next [] 4000 0
              (run [] [(0, Start bank_starters); (2500, Buzz)]%Z
                 (init bank_starters [] None)) starter_mars)
    as (H1 & H2 & _ & H4 & _ & H6 & H7 & _);
    [reflexivity|reflexivity|reflexivity|reflexivity
    |eexists; reflexivity|].
  cbn zeta. split_and!; [exact H1|exact H2|exact H6|exact H7|exact H4].
Defined.

Lemma bonus_sub_question_cycle_witness :
  let g' := run bank_bonuses
              [(5000, RevealBonusAnswer); (6000, JudgeBonus true)]%Z
              game_bonus in
  score g' = 15%Z ∧ correctBonuses g' = 1 ∧ totalBonuses g' = 1 ∧
  gameState g' = Bonus ∧ currentBonus g' = 1.
Proof.
  destruct (bonus_sub_question_cycle bank_bonuses 5000 6000 true game_bonus
              bonus_rivers)
    as (H1 & H2 & H3 & H4 & _);
    [reflexivity|reflexivity|reflexivity|reflexivity|vm_compute; lia
    |by vm_compute|].
  destruct H4 as (H4 & H5 & _).
  cbn zeta. split_and!; [exact H1|exact H2|exact H3|exact H4|exact H5].
Defined.

Lemma continue_round_witness :
  let g' := dispatch bank_bonuses 5000 ContinueRound game_session in
  gameState g' = Playing ∧ currentQuestion g' = 0 ∧
  startTime g' = Some 5000%Z ∧ totalStarters g' = 1.
Proof.
  destruct (continue_round bank_bonuses 5000 game_session)
    as (H1 & _ & _ & _ & _ & _ & H7 & _); [reflexivity|reflexivity|].
  destruct H1 as (H1 & H2 & _ & H4).
  cbn zeta. split_and!; [exact H1|exact H2|exact H4|exact H7].
Defined.

Lemma score_formula_witness :
  score game_bonus =
  (10 * Z.of_nat (correctStarters game_bonus) +
   5 * Z.of_nat (correctBonuses game_bonus))%Z.
Proof.
  apply (score_formula bank_starters bank_bonuses 10 game_bonus).
  - repeat constructor.
  - apply reachable_game_bonus.
Defined.

Lemma appended_entries_consistent_witness :
  Forall stat_consistent
    (statistics (dispatch bank_bonuses 9000 EndSession game_session)).
Proof.
  apply (appended_entries_consistent bank_starters bank_bonuses 9000
           EndSession game_session).
  - apply reachable_game_session.
  - exact I.
  - constructor.
Defined.

Lemma getAverageBuzzTime_bounds_witness :
  (inject_Z 1800 <= getAverageBuzzTime [2500; 1800; 4100]%Z)%Q ∧
  (getAverageBuzzTime [2500; 1800; 4100]%Z <= inject_Z 4100)%Q.
Proof.
  apply getAverageBuzzTime_bounds; [discriminate|].
  repeat constructor; lia.
Defined.

Lemma percentCorrect_range_witness :
  (0 <= percentCorrect 2 3)%Q ∧ (percentCorrect 2 3 <= 100)%Q ∧
  (3 = 0 → percentCorrect 2 3 = 0%Q).
Proof. apply percentCorrect_range. lia. Defined.
